(** * MetMusic: the [summon] command of the [Owner] cog

    A shallow embedding of [Owner.summon] (modules/legacy_cmds.py), the
    command that starts a music player in a guild and, when the pool holds
    several bots that could serve the requester, lets the requester pick one.

    The command is asynchronous Python that talks to Discord.  It is modelled
    as a pure function from what the command reads (the invocation context,
    the bot pool, the answers of the collaborators it calls) to the ordered
    list of calls it makes on its collaborators and the way it ends.

    The decorators of the command ([check_voice], the cooldown) run in the
    command framework before the body and are not part of it.  Objects are
    read where the source reads them: what the command knows of the
    requester comes from [ctx] before the selection and from [v.inter] after
    it, so a requester who left the voice channel in between is seen to
    have left.  Calls on Discord are taken to succeed, and so is
    [create_player] in [summon]; [summon_attempt] is the same command with
    a [create_player] that may raise. *)

From Stdlib Require Import Ascii.
From stdpp Require Import gmap strings list pretty.

Open Scope string_scope.
Open Scope list_scope.

(** ** Data model *)

(** Discord ids are Python ints. *)
Abbreviation Snowflake := Z (only parsing).

(** A voice channel, as a bot sees it.  [voice_states] is a dict keyed by
    member id in the library; the command only tests key membership, so the
    key set is kept. *)
Record VoiceChannel := {
  vc_id : Snowflake;
  vc_mention : string;
  voice_states : gset Z;
  is_stage : bool              (* isinstance(channel, disnake.StageChannel) *)
}.

Record VoiceState := { vs_channel : VoiceChannel }.

Record Member := {
  m_id : Snowflake;
  voice : option VoiceState    (* member.voice, None when not connected *)
}.

Record User := { u_id : Snowflake; u_mention : string }.

Record Guild := { g_id : Snowflake; me : Member }.

Record TextChannel := { tc_id : Snowflake }.

Record Node := { node_identifier : string }.

(** A player (session) of one bot in one guild. *)
Record LavalinkPlayer := {
  last_channel : VoiceChannel;
  controller_link : string
}.

(** One bot of the pool: [b.user], [b.bot_ready], [b.get_guild],
    [b.get_channel], [b.music.players], [b.music.get_best_node()]. *)
Record BotCore := {
  user : User;
  bot_ready : bool;
  guilds : gmap Z Guild;
  channels : gmap Z TextChannel;
  players : gmap Z LavalinkPlayer;
  best_node : option Node
}.

Definition get_guild (b : BotCore) (guild_id : Snowflake) : option Guild :=
  guilds b !! guild_id.

Definition get_channel (b : BotCore) (channel_id : Snowflake) : option TextChannel :=
  channels b !! channel_id.

Definition get_best_node (b : BotCore) : option Node := best_node b.

(** The cog: [self.bot.pool.bots], in pool order. *)
Record Owner := { pool_bots : list BotCore }.

(** What the command reads of its context.  The prefix-command context and
    the component interaction that replaces it after a selection expose the
    same attributes, so one record serves for both. *)
Record CustomContext := {
  ctx_bot : BotCore;
  ctx_guild : Guild;
  ctx_channel : TextChannel;
  ctx_author : Member;
  ctx_message : Snowflake
}.

Definition ctx_guild_id (ctx : CustomContext) : Snowflake := g_id (ctx_guild ctx).

(** ** Eligibility: the [free_bots] loop (lines 627-644) *)

(** One iteration of [for b in self.bot.pool.bots]: [true] when the body
    reaches [free_bots.append(b)], [false] when it hits a [continue]. *)
Definition is_free_bot (ctx : CustomContext) (b : BotCore) : bool :=
  if negb (bot_ready b) then false
  else
    match get_guild b (ctx_guild_id ctx) with
    | None => false
    | Some g =>
        match players b !! ctx_guild_id ctx with
        | Some p =>
            if bool_decide (m_id (ctx_author ctx) ∉ voice_states (last_channel p))
            then false
            else true
        | None => true
        end
    end.

Fixpoint free_bots_loop (ctx : CustomContext) (bots free_bots : list BotCore)
  : list BotCore :=
  match bots with
  | [] => free_bots
  | b :: rest =>
      if is_free_bot ctx b
      then free_bots_loop ctx rest (free_bots ++ [b])
      else free_bots_loop ctx rest free_bots
  end.

Definition free_bots (self : Owner) (ctx : CustomContext) : list BotCore :=
  free_bots_loop ctx (pool_bots self) [].

(** ** Collaborators and effects *)

Inductive Exn :=
| GenericError (text : string)
| NoVoice
| AttributeError             (* [.channel] read on a [None] voice state *)
| CheckError (text : string) (* whatever [can_connect] raises *).

(** The message object returned by [ctx.send]: the bot user that posted it
    and the channel it was posted in. *)
Record Message := { msg_bot : Snowflake; msg_channel : Snowflake }.

(** [self.bot.get_color(member)] is kept symbolic. *)
Inductive Color := get_color (member : Member).

Record Embed := { description : string; color : Color }.

(** The calls the command makes on its collaborators, in program order. *)
Inductive Event :=
| Send (msg : Message) (embed : Embed) (view_bots : list BotCore)
    (* msg = await ctx.send(embed=..., view=SelectBotVoice(ctx, guild, free_bots)) *)
| StoreMessage (msg : Message)                 (* ctx.store_message = msg *)
| WaitView                                     (* await v.wait() *)
| EditMessage (msg : Message) (content : option string) (embed : option Embed)
    (* await msg.edit(..., view=None) *)
| CreatePlayer (inter : CustomContext) (bot : BotCore) (guild : Guild)
    (channel : option TextChannel)
    (* await bot.get_cog("Music").create_player(inter=, bot=, guild=, channel=) *)
| Connect (player : LavalinkPlayer) (channel_id : Snowflake)
| AddReaction (message : Snowflake) (emoji : string)
| Sleep (milliseconds : Z)                     (* await asyncio.sleep(seconds) *)
| EditMe (member : Member) (suppress : bool)   (* await guild.me.edit(suppress=False) *)
| ProcessNext (player : LavalinkPlayer).

(** The view once [await v.wait()] has returned: [v.status] is [None] on
    timeout, [False] on cancel and [True] on a choice; [v.inter], [v.bot]
    and [v.guild] are what the view recorded for that choice. *)
Record SelectBotVoice := {
  v_status : option bool;
  v_inter : CustomContext;
  v_bot : BotCore;
  v_guild : Guild
}.

(** Functions of other modules that the command calls, with what they
    answer.  [can_connect] returns nothing and signals by raising;
    [me_voice_polls g] is the number of times [g.me.voice] is still falsy
    when polled, [None] if it never becomes truthy. *)
Record Collaborators := {
  can_connect : VoiceChannel → Guild → option Exn;
  create_player : CustomContext → BotCore → Guild → option TextChannel → LavalinkPlayer;
  me_voice_polls : Guild → option nat;
  manage_permissions : VoiceChannel → Member → bool
}.

(** How a block of statements ends. *)
Inductive Flow (A : Type) :=
| Next (a : A)       (* control reaches the next statement *)
| Return_            (* [return] *)
| Raise (e : Exn)    (* an exception leaves the command *)
| Hang.              (* a loop that never exits *)
Arguments Next {A} a.
Arguments Return_ {A}.
Arguments Raise {A} e.
Arguments Hang {A}.

Record Cmd (A : Type) := mkCmd { trace : list Event; flow : Flow A }.
Arguments mkCmd {A} trace flow.
Arguments trace {A} c.
Arguments flow {A} c.

#[global] Instance cmd_ret : MRet Cmd := λ A a, mkCmd [] (Next a).

#[global] Instance cmd_bind : MBind Cmd := λ A B k c,
  match flow c with
  | Next a => mkCmd (trace c ++ trace (k a)) (flow (k a))
  | Return_ => mkCmd (trace c) Return_
  | Raise e => mkCmd (trace c) (Raise e)
  | Hang => mkCmd (trace c) Hang
  end.

Definition emit (e : Event) : Cmd unit := mkCmd [e] (Next tt).
Definition raise {A} (e : Exn) : Cmd A := mkCmd [] (Raise e).
Definition return_ {A} : Cmd A := mkCmd [] Return_.
Definition hang {A} : Cmd A := mkCmd [] Hang.

(** [member.voice.channel] *)
Definition voice_channel (member : Member) : Cmd VoiceChannel :=
  match voice member with
  | Some vs => mret (vs_channel vs)
  | None => raise AttributeError
  end.

(** [while not ctx.guild.me.voice: await asyncio.sleep(1)] *)
Definition wait_me_voice (polls : option nat) : Cmd unit :=
  match polls with
  | Some n => mkCmd (replicate n (Sleep 1000)) (Next tt)
  | None => hang
  end.

Definition newline : string := String (Ascii.ascii_of_nat 10) "".

Definition already_initiated : string :=
  "**A player is already initiated on the server.**".
Definition no_music_servers : string := "**No music servers available!**".
Definition choose_bot (vc : VoiceChannel) : string :=
  "**Choose which bot you want to use in the channel " +:+ vc_mention vc +:+ "**".
Definition time_is_up : string := "### Time is up...".
Definition operation_canceled : string := "### Operation canceled.".
Definition not_connected : string := "### You are not connected to a voice channel...".
Definition session_started (vc : VoiceChannel) (bot : BotCore) (player : LavalinkPlayer)
  : string :=
  "Music session started on the channel " +:+ vc_mention vc +:+ newline +:+
  "By: " +:+ u_mention (user bot) +:+ controller_link player.
(** The emoji literal of line 701, as the file has it. *)
Definition thumbs_up : string := "üëç".

(** ** The command (lines 612-714) *)

(** Lines 682-714, from [can_connect(...)] to the end, for the values the
    locals [bot], [ctx], [guild], [channel] and [msg] have at that point. *)
Definition start_player (ext : Collaborators) (bot : BotCore) (ctx : CustomContext)
    (guild : Guild) (channel : option TextChannel) (msg : option Message) : Cmd unit :=
  vc ← voice_channel (ctx_author ctx);
  match can_connect ext vc guild with
  | Some e => raise e
  | None => mret tt
  end;;
  match get_best_node bot with
  | None => raise (GenericError no_music_servers)
  | Some node =>
      let player := create_player ext ctx bot guild channel in
      emit (CreatePlayer ctx bot guild channel);;
      vc ← voice_channel (ctx_author ctx);
      emit (Connect player (vc_id vc));;
      match msg with
      | Some m =>
          vc ← voice_channel (ctx_author ctx);
          emit (EditMessage m (Some (session_started vc bot player)) None)
      | None => emit (AddReaction (ctx_message ctx) thumbs_up)
      end;;
      wait_me_voice (me_voice_polls ext (ctx_guild ctx));;
      vc ← voice_channel (ctx_author ctx);
      (if is_stage vc then
         (if manage_permissions ext vc (me guild)
          then emit (EditMe (me guild) false)
          else mret tt);;
         emit (Sleep 1500)
       else mret tt);;
      emit (ProcessNext player)
  end.

(** Lines 612-680, then [start_player]. *)
Definition summon (self : Owner) (ext : Collaborators) (v : SelectBotVoice)
    (ctx : CustomContext) : Cmd unit :=
  (* try: ctx.bot.music.players[ctx.guild.id]; raise GenericError(...)
     except KeyError: pass *)
  match players (ctx_bot ctx) !! g_id (ctx_guild ctx) with
  | Some _ => raise (GenericError already_initiated)
  | None => mret tt
  end;;
  let bot := ctx_bot ctx in
  let guild := ctx_guild ctx in
  let channel := Some (ctx_channel ctx) in
  let msg : option Message := None in
  vc ← voice_channel (ctx_author ctx);
  '(bot, ctx, guild, channel, msg) ←
    (if bool_decide (u_id (user bot) ∉ voice_states vc) then
       let free_bots := free_bots self ctx in
       if bool_decide (1 < length free_bots) then   (* len(free_bots) > 1 *)
         vc ← voice_channel (ctx_author ctx);
         let m := {| msg_bot := u_id (user (ctx_bot ctx));
                     msg_channel := tc_id (ctx_channel ctx) |} in
         emit (Send m {| description := choose_bot vc; color := get_color (me guild) |}
                 free_bots);;
         emit (StoreMessage m);;
         emit WaitView;;
         match v_status v with
         | None =>
             emit (EditMessage m None
                     (Some {| description := time_is_up; color := get_color (me guild) |}));;
             return_
         | Some false =>
             emit (EditMessage m None
                     (Some {| description := operation_canceled;
                              color := get_color (me guild) |}));;
             return_
         | Some true =>
             match voice (ctx_author (v_inter v)) with
             | None =>
                 emit (EditMessage m None
                         (Some {| description := not_connected;
                                  color := get_color (me guild) |}));;
                 return_
             | Some _ =>
                 match voice (ctx_author (v_inter v)) with
                 | None => raise NoVoice
                 | Some _ =>
                     let bot := v_bot v in
                     let ctx := v_inter v in
                     let guild := v_guild v in
                     let channel := get_channel bot (tc_id (ctx_channel ctx)) in
                     mret (bot, ctx, guild, channel, Some m)
                 end
             end
         end
       else mret (bot, ctx, guild, channel, msg)
     else mret (bot, ctx, guild, channel, msg));
  start_player ext bot ctx guild channel msg.

(** ** Observations on an execution *)

(** The arguments of every [create_player] call, in order: which
    interaction, on which bot, in which guild, bound to which text channel. *)
Definition created_player (e : Event)
  : option (CustomContext * BotCore * Guild * option TextChannel) :=
  match e with
  | CreatePlayer inter bot guild channel => Some (inter, bot, guild, channel)
  | _ => None
  end.

Definition sessions_created (t : list Event) := omap created_player t.

(** The voice channels the created players were connected to. *)
Definition connected_to (e : Event) : option (LavalinkPlayer * Snowflake) :=
  match e with
  | Connect player channel_id => Some (player, channel_id)
  | _ => None
  end.

Definition connections (t : list Event) := omap connected_to t.

(** The candidate lists of the selection prompts that were shown. *)
Definition prompted (e : Event) : option (list BotCore) :=
  match e with
  | Send _ _ view_bots => Some view_bots
  | _ => None
  end.

Definition prompts (t : list Event) := omap prompted t.

(** The request ended with an exception. *)
Definition rejected {A} (c : Cmd A) : Prop := ∃ e, flow c = Raise e.

(** Bot [b] has a player in guild [guild_id]. *)
Definition has_player (b : BotCore) (guild_id : Snowflake) : Prop :=
  is_Some (players b !! guild_id).

(** The prompt of the selection: the message posted by the addressed bot in
    the channel of the command, and its embed. *)
Definition prompt_message (ctx : CustomContext) : Message :=
  {| msg_bot := u_id (user (ctx_bot ctx)); msg_channel := tc_id (ctx_channel ctx) |}.

Definition notice (ctx : CustomContext) (text : string) : Embed :=
  {| description := text; color := get_color (me (ctx_guild ctx)) |}.

Definition selection_prompt (self : Owner) (ctx : CustomContext) (vc : VoiceChannel)
  : list Event :=
  [ Send (prompt_message ctx) (notice ctx (choose_bot vc)) (free_bots self ctx);
    StoreMessage (prompt_message ctx);
    WaitView ].


Definition session_bots (t : list Event) : list BotCore :=
  (λ s, s.1.1.2) <$> sessions_created t.

(** The calls made once the player is connected and the requester told. *)
Definition housekeeping (e : Event) : bool :=
  match e with
  | Sleep _ | EditMe _ _ | ProcessNext _ => true
  | _ => false
  end.

(** The answer given to the requester after [player.connect] (lines 695-701). *)
Definition started_feedback (bot : BotCore) (ctx : CustomContext) (vc : VoiceChannel)
    (player : LavalinkPlayer) (msg : option Message) : Event :=
  match msg with
  | Some m => EditMessage m (Some (session_started vc bot player)) None
  | None => AddReaction (ctx_message ctx) thumbs_up
  end.



(** ** When [create_player] raises

    [create_player] belongs to the Music cog; [start_player] and [summon]
    take its call to return a player.  Below the call may also raise:
    [attempt] gives, for the arguments of a call, the exception it raises,
    if any.  The call is awaited outside any [try] (lines 689-691). *)
Definition Attempt : Type :=
  CustomContext → BotCore → Guild → option TextChannel → option Exn.

(** Lines 682-714. *)
Definition start_player_attempt (ext : Collaborators) (attempt : Attempt) (bot : BotCore)
    (ctx : CustomContext) (guild : Guild) (channel : option TextChannel)
    (msg : option Message) : Cmd unit :=
  vc ← voice_channel (ctx_author ctx);
  match can_connect ext vc guild with
  | Some e => raise e
  | None => mret tt
  end;;
  match get_best_node bot with
  | None => raise (GenericError no_music_servers)
  | Some node =>
      emit (CreatePlayer ctx bot guild channel);;
      match attempt ctx bot guild channel with
      | Some e => raise e
      | None => mret tt
      end;;
      let player := create_player ext ctx bot guild channel in
      vc ← voice_channel (ctx_author ctx);
      emit (Connect player (vc_id vc));;
      match msg with
      | Some m =>
          vc ← voice_channel (ctx_author ctx);
          emit (EditMessage m (Some (session_started vc bot player)) None)
      | None => emit (AddReaction (ctx_message ctx) thumbs_up)
      end;;
      wait_me_voice (me_voice_polls ext (ctx_guild ctx));;
      vc ← voice_channel (ctx_author ctx);
      (if is_stage vc then
         (if manage_permissions ext vc (me guild)
          then emit (EditMe (me guild) false)
          else mret tt);;
         emit (Sleep 1500)
       else mret tt);;
      emit (ProcessNext player)
  end.

(** Lines 612-680: the values of the locals [bot], [ctx], [guild],
    [channel] and [msg] when line 682 is reached. *)
Definition summon_locals (self : Owner) (v : SelectBotVoice) (ctx : CustomContext)
  : Cmd (BotCore * CustomContext * Guild * option TextChannel * option Message) :=
  match players (ctx_bot ctx) !! g_id (ctx_guild ctx) with
  | Some _ => raise (GenericError already_initiated)
  | None => mret tt
  end;;
  let bot := ctx_bot ctx in
  let guild := ctx_guild ctx in
  let channel := Some (ctx_channel ctx) in
  let msg : option Message := None in
  vc ← voice_channel (ctx_author ctx);
  if bool_decide (u_id (user bot) ∉ voice_states vc) then
    let free_bots := free_bots self ctx in
    if bool_decide (1 < length free_bots) then
      vc ← voice_channel (ctx_author ctx);
      let m := {| msg_bot := u_id (user (ctx_bot ctx));
                  msg_channel := tc_id (ctx_channel ctx) |} in
      emit (Send m {| description := choose_bot vc; color := get_color (me guild) |}
              free_bots);;
      emit (StoreMessage m);;
      emit WaitView;;
      match v_status v with
      | None =>
          emit (EditMessage m None
                  (Some {| description := time_is_up; color := get_color (me guild) |}));;
          return_
      | Some false =>
          emit (EditMessage m None
                  (Some {| description := operation_canceled;
                           color := get_color (me guild) |}));;
          return_
      | Some true =>
          match voice (ctx_author (v_inter v)) with
          | None =>
              emit (EditMessage m None
                      (Some {| description := not_connected;
                               color := get_color (me guild) |}));;
              return_
          | Some _ =>
              match voice (ctx_author (v_inter v)) with
              | None => raise NoVoice
              | Some _ =>
                  let bot := v_bot v in
                  let ctx := v_inter v in
                  let guild := v_guild v in
                  let channel := get_channel bot (tc_id (ctx_channel ctx)) in
                  mret (bot, ctx, guild, channel, Some m)
              end
          end
      end
    else mret (bot, ctx, guild, channel, msg)
  else mret (bot, ctx, guild, channel, msg).

(** The command, lines 612-714, with a [create_player] that may raise. *)
Definition summon_attempt (self : Owner) (ext : Collaborators) (attempt : Attempt)
    (v : SelectBotVoice) (ctx : CustomContext) : Cmd unit :=
  '(bot, ctx, guild, channel, msg) ← summon_locals self v ctx;
  start_player_attempt ext attempt bot ctx guild channel msg.

(** ** A pool with two bots in one guild

    Guild 50 has the voice channels 101 and 102 and the text channel 60.
    Bot 1 holds no player; bot 2 holds a player in voice channel 101, where
    member 7 is listening; member 8 sits alone in voice channel 102. *)
Module Scenario.
Open Scope Z_scope.

Definition voice_101 : VoiceChannel :=
  {| vc_id := 101; vc_mention := "<#101>"; voice_states := {[ 7; 2 ]};
     is_stage := false |}.
Definition voice_102 : VoiceChannel :=
  {| vc_id := 102; vc_mention := "<#102>"; voice_states := {[ 8 ]};
     is_stage := false |}.
Definition text_60 : TextChannel := {| tc_id := 60 |}.

Definition guild_of (bot_id : Z) : Guild :=
  {| g_id := 50; me := {| m_id := bot_id; voice := None |} |}.

Definition bot_1 : BotCore :=
  {| user := {| u_id := 1; u_mention := "<@1>" |}; bot_ready := true;
     guilds := {[ 50 := guild_of 1 ]}; channels := {[ 60 := text_60 ]};
     players := ∅; best_node := Some {| node_identifier := "LOCAL" |} |}.

Definition bot_2 : BotCore :=
  {| user := {| u_id := 2; u_mention := "<@2>" |}; bot_ready := true;
     guilds := {[ 50 := guild_of 2 ]}; channels := {[ 60 := text_60 ]};
     players := {[ 50 := {| last_channel := voice_101; controller_link := "" |} ]};
     best_node := Some {| node_identifier := "LOCAL" |} |}.

(** A third bot, free, and bot 1 before its start-up has finished. *)
Definition bot_3 : BotCore :=
  {| user := {| u_id := 3; u_mention := "<@3>" |}; bot_ready := true;
     guilds := {[ 50 := guild_of 3 ]}; channels := {[ 60 := text_60 ]};
     players := ∅; best_node := Some {| node_identifier := "LOCAL" |} |}.


Definition member_7 : Member := {| m_id := 7; voice := Some {| vs_channel := voice_101 |} |}.
Definition member_7_gone : Member := {| m_id := 7; voice := None |}.
Definition member_8 : Member := {| m_id := 8; voice := Some {| vs_channel := voice_102 |} |}.

(** Bot 3 sitting in voice channel 103 with member 9, without a player. *)
Definition voice_103 : VoiceChannel :=
  {| vc_id := 103; vc_mention := "<#103>"; voice_states := {[ 9; 3 ]};
     is_stage := true |}.
Definition member_9 : Member := {| m_id := 9; voice := Some {| vs_channel := voice_103 |} |}.

Definition pool : Owner := {| pool_bots := [bot_1; bot_2] |}.

(** The command, sent to [bot] by [author] in text channel 60. *)
Definition command (bot : BotCore) (author : Member) : CustomContext :=
  {| ctx_bot := bot; ctx_guild := guild_of (u_id (user bot));
     ctx_channel := text_60; ctx_author := author; ctx_message := 900 |}.

(** The click of [author] on the prompt posted by bot 1. *)
Definition click (author : Member) : CustomContext :=
  {| ctx_bot := bot_1; ctx_guild := guild_of 1; ctx_channel := text_60;
     ctx_author := author; ctx_message := 901 |}.

Definition ext : Collaborators :=
  {| can_connect := λ _ _, None;
     create_player := λ inter _ _ _,
       {| last_channel := default voice_101 (vs_channel <$> voice (ctx_author inter));
          controller_link := "" |};
     me_voice_polls := λ _, Some 1%nat;
     manage_permissions := λ _ _, false |}.

Definition view (status : option bool) (author : Member) : SelectBotVoice :=
  {| v_status := status; v_inter := click author; v_bot := bot_2;
     v_guild := guild_of 2 |}.
End Scenario.

(** * The other commands of the cog *)

(** ** Python string methods

    [str] values are Rocq strings, one character per code point (code
    points below 256). *)

(** [s.startswith(prefix)] and [s.endswith(suffix)] *)
Definition startswith (s prefix : string) : bool := String.prefix prefix s.

Definition endswith (s suffix : string) : bool :=
  String.prefix (String.rev suffix) (String.rev s).

(** [s[:n]] and [s[n:]] for [n >= 0]; [s[:-n]] for [n > 0]. *)
Fixpoint str_take (n : nat) (s : string) : string :=
  match n, s with
  | S n', String c s' => String c (str_take n' s')
  | _, _ => ""
  end.

Fixpoint str_drop (n : nat) (s : string) : string :=
  match n, s with
  | S n', String c s' => str_drop n' s'
  | _, _ => s
  end.

Definition str_drop_last (n : nat) (s : string) : string :=
  str_take (String.length s - n) s.

(** [s.split(sep)] for a non-empty [sep]: the leftmost occurrence of [sep]
    ends the current piece, and the search goes on after it.  [skip] counts
    the characters of a separator that are still to be passed over. *)
Fixpoint split_go (sep : string) (skip : nat) (cur s : string) : list string :=
  match s with
  | "" => [cur]
  | String c s' =>
      match skip with
      | S k => split_go sep k cur s'
      | O =>
          if String.prefix sep s
          then cur :: split_go sep (String.length sep - 1) "" s'
          else split_go sep 0 (cur +:+ String c "") s'
      end
  end.

Definition split (s sep : string) : list string := split_go sep 0 "" s.

(** [sep.join(pieces)] *)
Definition join (sep : string) (pieces : list string) : string :=
  String.concat sep pieces.

(** [s.replace(c, '')] for a single character [c]. *)
Fixpoint remove_char (c : Ascii.ascii) (s : string) : string :=
  match s with
  | "" => ""
  | String a s' => if decide (a = c) then remove_char c s' else String a (remove_char c s')
  end.

(** [c.isspace()] on the code points below 256. *)
Definition isspace (c : Ascii.ascii) : bool :=
  let n := Ascii.N_of_ascii c in
  bool_decide (9 ≤ n ≤ 13 ∨ 28 ≤ n ≤ 32 ∨ n = 133 ∨ n = 160)%N.

(** [s.lstrip(...)], [s.rstrip(...)], [s.strip(...)]: [drop c] tells
    whether character [c] is stripped. *)
Fixpoint lstrip (drop : Ascii.ascii → bool) (s : string) : string :=
  match s with
  | String c s' => if drop c then lstrip drop s' else s
  | "" => ""
  end.

Definition rstrip (drop : Ascii.ascii → bool) (s : string) : string :=
  String.rev (lstrip drop (String.rev s)).

Definition strip (drop : Ascii.ascii → bool) (s : string) : string :=
  rstrip drop (lstrip drop s).

(** [l[1:-1]] *)
Definition inner {A} (l : list A) : list A := drop 1 (take (length l - 1) l).

(** ** Results of the plain functions *)

Inductive Raised :=
| Known (e : Exn)               (* the exceptions [summon] also raises *)
| IndexError
| KeyError (key : string)
| Exception (text : string)
| OSError (class : string).    (* [NotADirectoryError], [PermissionError], ... *)

Inductive Try (A : Type) :=
| Returns (a : A)
| Raises (e : Raised).
Arguments Returns {A} a.
Arguments Raises {A} e.

#[global] Instance try_ret : MRet Try := λ A a, Returns a.
#[global] Instance try_bind : MBind Try := λ A B k t,
  match t with
  | Returns a => k a
  | Raises e => Raises e
  end.

(** [d[key]] on a dict with string keys. *)
Definition getitem {A} (d : gmap string A) (key : string) : Try A :=
  match d !! key with
  | Some a => Returns a
  | None => Raises (KeyError key)
  end.

(** [t[i]] on a list. *)
Definition index {A} (t : list A) (i : nat) : Try A :=
  match t !! i with
  | Some a => Returns a
  | None => Raises IndexError
  end.

(** ** [format_git_log] (lines 33-43) and [Owner.format_log] (lines 102-105) *)

Definition git_separator : string := "*****".

(** The dict built on line 41. *)
Definition git_log_entry (t : list string) : Try (gmap string string) :=
  commit ← index t 0;
  abbreviated_commit ← index t 1;
  subject ← index t 2;
  timestamp ← index t 3;
  mret ({[ "commit" := commit; "abbreviated_commit" := abbreviated_commit;
           "subject" := subject; "timestamp" := timestamp ]} : gmap string string).

Fixpoint format_git_log_loop (data_list : list string) (data : list (gmap string string))
  : Try (list (gmap string string)) :=
  match data_list with
  | [] => Returns data
  | d :: rest =>
      if decide (d = "") then format_git_log_loop rest data      (* if not d: continue *)
      else
        entry ← git_log_entry (split d git_separator);
        format_git_log_loop rest (data ++ [entry])
  end.

Definition format_git_log (data_list : list string) : Try (list (gmap string string)) :=
  format_git_log_loop data_list [].

(** The subject as line 104 shows it. *)
Definition shown_subject (subject : string) : string :=
  if bool_decide (39 < String.length subject)%nat       (* len(c['subject']) > 39 *)
  then remove_char "`"%char (str_take 40 subject) +:+ "..."
  else subject.

(** One element of the generator of lines 103-105. *)
Definition format_log_line (remote_git_url : string) (c : gmap string string) : Try string :=
  abbreviated_commit ← getitem c "abbreviated_commit";
  commit ← getitem c "commit";
  subject ← getitem c "subject";
  timestamp ← getitem c "timestamp";
  mret ("[`" +:+ abbreviated_commit +:+ "`](" +:+ remote_git_url +:+ "/commit/" +:+
        commit +:+ ") `- " +:+ shown_subject subject +:+ "` (<t:" +:+ timestamp +:+ ":R>)").

Fixpoint format_log_lines (remote_git_url : string) (data : list (gmap string string))
  : Try (list string) :=
  match data with
  | [] => Returns []
  | c :: rest =>
      line ← format_log_line remote_git_url c;
      lines ← format_log_lines remote_git_url rest;
      mret (line :: lines)
  end.

Definition format_log (remote_git_url : string) (data : list (gmap string string))
  : Try string :=
  lines ← format_log_lines remote_git_url data;
  mret (join newline lines).

(** [c in s] for a character [c]. *)
Fixpoint has_char (c : Ascii.ascii) (s : string) : bool :=
  match s with
  | "" => false
  | String a s' => if decide (a = c) then true else has_char c s'
  end.

(** A commit as [git log] is asked to print it by [git_format] (line 72):
    [%H*****%h*****%s*****%ct]. *)
Record GitCommit := {
  commit_hash : string;          (* %H *)
  commit_abbrev : string;        (* %h *)
  commit_subject : string;       (* %s *)
  commit_time : string           (* %ct *)
}.

Definition git_log_line (c : GitCommit) : string :=
  commit_hash c +:+ git_separator +:+ commit_abbrev c +:+ git_separator +:+
  commit_subject c +:+ git_separator +:+ commit_time c.

Definition git_log_dict (c : GitCommit) : gmap string string :=
  {[ "commit" := commit_hash c; "abbreviated_commit" := commit_abbrev c;
     "subject" := commit_subject c; "timestamp" := commit_time c ]}.

Definition star_free (c : GitCommit) : Prop :=
  has_char "*" (commit_hash c) = false ∧ has_char "*" (commit_abbrev c) = false ∧
  has_char "*" (commit_subject c) = false ∧ has_char "*" (commit_time c) = false.

(** ** Commands with state: the prefix commands (lines 366-516)

    The commands below change the prefix caches of the pool and the data
    dict that the context carries, and call the database layer of the bot.
    [get_global_data], [escape_markdown] and the default prefix belong to
    other modules and are given. *)

(** The values found in a data dict. *)
Inductive PyValue :=
| PyStr (s : string)
| PyInt (n : Z)
| PyBool (b : bool)
| PyNone.

(** [bool(v)] *)
Definition truthy (v : PyValue) : bool :=
  match v with
  | PyStr s => negb (bool_decide (s = ""))
  | PyInt n => negb (bool_decide (n = 0%Z))
  | PyBool b => b
  | PyNone => false
  end.

Inductive DBModel := db_guilds | db_users.

#[global] Instance db_model_eq_dec : EqDecision DBModel.
Proof. solve_decision. Defined.

(** What the commands change: [self.bot.pool.guild_prefix_cache],
    [self.bot.pool.user_prefix_cache], and the attributes
    [ctx.global_guild_data] and [ctx.global_user_data] ([None] while the
    attribute is not set). *)
Record Machine := {
  guild_prefix_cache : gmap Z string;
  user_prefix_cache : gmap Z string;
  global_guild_data : option (gmap string PyValue);
  global_user_data : option (gmap string PyValue)
}.

(** The calls the commands make, in program order. *)
Inductive Call :=
| GetGlobalData (id : Snowflake) (db_name : DBModel)
| UpdateGlobalData (id : Snowflake) (data : gmap string PyValue) (db_name : DBModel)
| SendEmbed (embed : Embed)                    (* await ctx.send(embed=embed) *)
| DeleteMessage (message : Snowflake)          (* await msg.delete() *)
| Pause (milliseconds : Z)                     (* await asyncio.sleep(seconds) *)
| Typing                                       (* async with ctx.typing(): *)
| RunCommand (cmd : string)                    (* asyncio.create_subprocess_shell(cmd, ...) *)
| Reply (content : option string) (file : option (string * string))
    (components : list (string * string * string))
    (* await ctx.reply(components=[...], mention_author=False,
       fail_if_not_exists=False, and kwargs); a file is (filename, text), a
       button is (label, custom_id, emoji) *)
| SendAuthor (content : option string) (file : option (string * string))
    (* await ctx.author.send with kwargs *)
| ReactTo (message : Snowflake) (emoji : string)   (* await ctx.message.add_reaction(emoji) *)
| PrintTraceback                               (* traceback.print_exc() *)
| InterSend (content : string) (ephemeral : bool)  (* await inter.send(content, ephemeral=...) *)
| EditResponse (content : string)
    (* await inter.response.edit_message(content=..., attachments=None, view=None, embed=None) *)
| LoadModules (bot : Snowflake) (modules : list string)   (* bot.load_modules(modules) *)
| LoadSkins (bot : Snowflake)                             (* bot.load_skins() *)
| SyncAppCommands (bot : Snowflake) (force : bool)        (* await bot.sync_app_commands(force=...) *)
| SyncCommandCooldowns (bot : Snowflake)                  (* bot.sync_command_cooldowns() *)
| LoadConfig                                   (* self.bot.pool.config = load_config() *)
| SendEmbedView (embed : Embed).               (* await ctx.send(embed=embed, view=self.owner_view) *)

Record Services := {
  get_global_data : Snowflake → DBModel → gmap string PyValue;
  escape_markdown : string → string;
  default_prefix : string
}.

Record Ran (A : Type) := mkRan { after : Machine; calls : list Call; result : Try A }.
Arguments mkRan {A} after calls result.
Arguments after {A} r.
Arguments calls {A} r.
Arguments result {A} r.

Definition Act (A : Type) : Type := Machine → Ran A.

#[global] Instance act_ret : MRet Act := λ A a m, mkRan m [] (Returns a).

#[global] Instance act_bind : MBind Act := λ A B k act m,
  let r := act m in
  match result r with
  | Returns a =>
      let r' := k a (after r) in
      mkRan (after r') (calls r ++ calls r') (result r')
  | Raises e => mkRan (after r) (calls r) (Raises e)
  end.

Definition call (c : Call) : Act unit := λ m, mkRan m [c] (Returns tt).
Definition throw {A} (e : Raised) : Act A := λ m, mkRan m [] (Raises e).
Definition read {A} (f : Machine → A) : Act A := λ m, mkRan m [] (Returns (f m)).
Definition write (f : Machine → Machine) : Act unit := λ m, mkRan (f m) [] (Returns tt).
Definition lift {A} (t : Try A) : Act A := λ m, mkRan m [] t.

Definition set_guild_prefix_cache (id : Snowflake) (prefix : string) (m : Machine) : Machine :=
  {| guild_prefix_cache := <[id := prefix]> (guild_prefix_cache m);
     user_prefix_cache := user_prefix_cache m;
     global_guild_data := global_guild_data m;
     global_user_data := global_user_data m |}.

Definition set_user_prefix_cache (id : Snowflake) (prefix : string) (m : Machine) : Machine :=
  {| guild_prefix_cache := guild_prefix_cache m;
     user_prefix_cache := <[id := prefix]> (user_prefix_cache m);
     global_guild_data := global_guild_data m;
     global_user_data := global_user_data m |}.

Definition set_global_guild_data (data : gmap string PyValue) (m : Machine) : Machine :=
  {| guild_prefix_cache := guild_prefix_cache m;
     user_prefix_cache := user_prefix_cache m;
     global_guild_data := Some data;
     global_user_data := global_user_data m |}.

Definition set_global_user_data (data : gmap string PyValue) (m : Machine) : Machine :=
  {| guild_prefix_cache := guild_prefix_cache m;
     user_prefix_cache := user_prefix_cache m;
     global_guild_data := global_guild_data m;
     global_user_data := Some data |}.

(** [try: guild_data = ctx.global_guild_data
     except AttributeError:
         guild_data = await self.bot.get_global_data(ctx.guild.id, db_name=DBModel.guilds)
         ctx.global_guild_data = guild_data]
    The dict is shared with the context, so the context attribute stands
    for it afterwards. *)
Definition guild_data_of (srv : Services) (ctx : CustomContext)
  : Act (gmap string PyValue) :=
  cached ← read global_guild_data;
  match cached with
  | Some guild_data => mret guild_data
  | None =>
      call (GetGlobalData (g_id (ctx_guild ctx)) db_guilds);;
      let guild_data := get_global_data srv (g_id (ctx_guild ctx)) db_guilds in
      write (set_global_guild_data guild_data);;
      mret guild_data
  end.

Definition user_data_of (srv : Services) (ctx : CustomContext)
  : Act (gmap string PyValue) :=
  cached ← read global_user_data;
  match cached with
  | Some user_data => mret user_data
  | None =>
      call (GetGlobalData (m_id (ctx_author ctx)) db_users);;
      let user_data := get_global_data srv (m_id (ctx_author ctx)) db_users in
      write (set_global_user_data user_data);;
      mret user_data
  end.

Definition prefix_refused : string :=
  "**The prefix cannot contain spaces or exceed 5 characters.**".
Definition no_prefix_configured : string := "**No prefix configured in the server.**".
Definition no_user_prefix : string := "**You do not have a configured prefix.**".
Definition server_id_refused : string :=
  "**The number of characters in the server ID must be between 18 to 23.**".

(** The names of the commands [resetprefix] and [resetuserprefix]. *)
Definition resetprefix_name : string := "resetprefix".
Definition resetuserprefix_name : string := "resetuserprefix".

(** Lines 373-398. *)
Definition setprefix (srv : Services) (ctx : CustomContext) (prefix : string) : Act unit :=
  let prefix := strip isspace prefix in
  if bool_decide (prefix = "") || bool_decide (5 < String.length prefix)%nat
  then throw (Known (GenericError prefix_refused))
  else
    guild_data ← guild_data_of srv ctx;
    write (set_guild_prefix_cache (g_id (ctx_guild ctx)) prefix);;
    let guild_data := <["prefix" := PyStr prefix]> guild_data in
    write (set_global_guild_data guild_data);;
    call (UpdateGlobalData (g_id (ctx_guild ctx)) guild_data db_guilds);;
    let prefix := escape_markdown srv prefix in
    call (SendEmbed
            {| description :=
                 "**My prefix in the server is now:** `" +:+ prefix +:+ "`" +:+ newline +:+
                 "**If you want to restore the default prefix, use the command:** `" +:+
                 prefix +:+ resetprefix_name +:+ "`";
               color := get_color (me (ctx_guild ctx)) |}).

(** Lines 405-427. *)
Definition resetprefix (srv : Services) (ctx : CustomContext) : Act unit :=
  guild_data ← guild_data_of srv ctx;
  current ← lift (getitem guild_data "prefix");
  if negb (truthy current)
  then throw (Known (GenericError no_prefix_configured))
  else
    let guild_data := <["prefix" := PyStr ""]> guild_data in
    write (set_global_guild_data guild_data);;
    write (set_guild_prefix_cache (g_id (ctx_guild ctx)) "");;
    call (UpdateGlobalData (g_id (ctx_guild ctx)) guild_data db_guilds);;
    call (SendEmbed
            {| description :=
                 "**The server's prefix has been successfully reset." +:+ newline +:+
                 "The default prefix now is:** `" +:+
                 escape_markdown srv (default_prefix srv) +:+ "`";
               color := get_color (me (ctx_guild ctx)) |}).

(** Lines 436-461. *)
Definition setuserprefix (srv : Services) (ctx : CustomContext) (prefix : string)
  : Act unit :=
  let prefix := strip isspace prefix in
  if bool_decide (prefix = "") || bool_decide (5 < String.length prefix)%nat
  then throw (Known (GenericError prefix_refused))
  else
    user_data ← user_data_of srv ctx;
    let user_data := <["custom_prefix" := PyStr prefix]> user_data in
    write (set_global_user_data user_data);;
    write (set_user_prefix_cache (m_id (ctx_author ctx)) prefix);;
    call (UpdateGlobalData (m_id (ctx_author ctx)) user_data db_users);;
    let prefix := escape_markdown srv prefix in
    call (SendEmbed
            {| description :=
                 "**Your user prefix is now:** `" +:+ prefix +:+ "`" +:+ newline +:+
                 "**To remove your user prefix, use the command:** `" +:+
                 prefix +:+ resetuserprefix_name +:+ "`";
               color := get_color (me (ctx_guild ctx)) |}).

(** Lines 465-485. *)
Definition resetuserprefix (srv : Services) (ctx : CustomContext) : Act unit :=
  user_data ← user_data_of srv ctx;
  current ← lift (getitem user_data "custom_prefix");
  if negb (truthy current)
  then throw (Known (GenericError no_user_prefix))
  else
    let user_data := <["custom_prefix" := PyStr ""]> user_data in
    write (set_global_user_data user_data);;
    write (set_user_prefix_cache (m_id (ctx_author ctx)) "");;
    call (UpdateGlobalData (m_id (ctx_author ctx)) user_data db_users);;
    call (SendEmbed
            {| description := "**Your user prefix has been successfully removed.**";
               color := get_color (me (ctx_guild ctx)) |}).

(** Lines 493-516.  [prefix] is [None] when the argument is left out. *)
Definition setguildprefix (srv : Services) (ctx : CustomContext) (server_id : Z)
    (prefix : option string) : Act unit :=
  let n := String.length (pretty server_id) in       (* len(str(server_id)) *)
  if negb (bool_decide (17 < n)%nat && bool_decide (n < 24)%nat)
  then throw (Known (GenericError server_id_refused))
  else
    call (GetGlobalData server_id db_guilds);;
    let guild_data := get_global_data srv server_id db_guilds in
    match prefix with
    | None => throw (Known AttributeError)          (* None.strip() *)
    | Some prefix =>
        let prefix := strip isspace prefix in
        embed ←
          (if bool_decide (prefix = "") then
             let guild_data := <["prefix" := PyStr ""]> guild_data in
             call (UpdateGlobalData server_id guild_data db_guilds);;
             mret {| description :=
                       "**The prefix for the specified server ID has been successfully reset.**";
                     color := get_color (me (ctx_guild ctx)) |}
           else
             let guild_data := <["prefix" := PyStr prefix]> guild_data in
             call (UpdateGlobalData server_id guild_data db_guilds);;
             mret {| description :=
                       "**The prefix for the server with the specified ID is now:** " +:+
                       escape_markdown srv prefix;
                     color := get_color (me (ctx_guild ctx)) |});
        write (set_guild_prefix_cache (g_id (ctx_guild ctx)) prefix);;
        call (SendEmbed embed)
    end.

(** The data written to the database, with the id and table they were
    written under, in order. *)
Definition updated (c : Call) : option (Snowflake * gmap string PyValue * DBModel) :=
  match c with
  | UpdateGlobalData id data db_name => Some (id, data, db_name)
  | _ => None
  end.

Definition updates (cs : list Call) := omap updated cs.

(** The reads of the database. *)
Definition fetched (c : Call) : option (Snowflake * DBModel) :=
  match c with
  | GetGlobalData id db_name => Some (id, db_name)
  | _ => None
  end.

Definition fetches (cs : list Call) := omap fetched cs.

(** [s] neither starts nor ends with a whitespace character. *)
Definition trimmed (s : string) : Prop :=
  (∀ c rest, s = String c rest → isspace c = false) ∧
  (∀ init c, s = init +:+ String c "" → isspace c = false).

(** ** [cleardm] (lines 522-542) *)

(** A message of the author's DM channel, as [ctx.author.history] yields it. *)
Record DirectMessage := { dm_id : Snowflake; dm_author : Snowflake }.

Definition none_deleted (amount : Z) : string :=
  "**No message was deleted from " +:+ pretty amount +:+ " checked message(s)...**".
Definition one_deleted : string := "**One message was deleted from your DM.**".
Definition many_deleted (counter : Z) : string :=
  "**" +:+ pretty counter +:+ " messages were deleted from your DM.**".

(** The body of [async for msg in ctx.author.history(limit=int(amount))],
    over the messages that the iterator yields. *)
Fixpoint cleardm_loop (bot : BotCore) (history : list DirectMessage) (counter : Z) : Act Z :=
  match history with
  | [] => mret counter
  | msg :: rest =>
      if bool_decide (dm_author msg = u_id (user bot)) then
        call (DeleteMessage (dm_id msg));;
        call (Pause 500);;
        cleardm_loop bot rest (counter + 1)
      else cleardm_loop bot rest counter
  end.

(** [bot] is [self.bot]; [history] is what [ctx.author.history] yields for
    the limit [int(amount)]. *)
Definition cleardm (bot : BotCore) (ctx : CustomContext) (amount : Z)
    (history : list DirectMessage) : Act unit :=
  call Typing;;
  counter ← cleardm_loop bot history 0;
  if bool_decide (counter = 0%Z)
  then throw (Known (GenericError (none_deleted amount)))
  else
    let txt := if bool_decide (counter = 1%Z) then one_deleted else many_deleted counter in
    call (SendEmbed {| description := txt; color := get_color (me (ctx_guild ctx)) |}).

(** The messages deleted, in order. *)
Definition deleted (c : Call) : option Snowflake :=
  match c with
  | DeleteMessage message => Some message
  | _ => None
  end.

Definition deletions (cs : list Call) := omap deleted cs.

(** The embeds sent to the channel of the command. *)
Definition sent (c : Call) : option Embed :=
  match c with
  | SendEmbed embed => Some embed
  | _ => None
  end.

Definition embeds_sent (cs : list Call) := omap sent cs.

(** ** [run_command] and [ShellResult] (lines 46-66) *)

(** The subprocess once it has ended: [p.returncode] and the pair that
    [p.communicate()] returns. *)
Record Process := {
  returncode : Z;
  communicate : option (list Byte.byte) * option (list Byte.byte)
}.

(** [asyncio.create_subprocess_shell] followed to the end of the process,
    and [bytes.decode(encoding="utf-8", errors="replace")]. *)
Record Shell := {
  create_subprocess_shell : string → Process;
  decode : list Byte.byte → string
}.

Record ShellResult := { status : Z; stdout : option string; stderr : option string }.

(** [ShellResult.__init__] *)
Definition ShellResult_init (sh : Shell) (status : Z)
    (stdout stderr : option (list Byte.byte)) : ShellResult :=
  {| status := status; stdout := decode sh <$> stdout; stderr := decode sh <$> stderr |}.

(** [str(x)] for [x] a string or [None]. *)
Definition str_of (x : option string) : string := default "None" x.

(** [x or y] for [x], [y] strings or [None]. *)
Definition or_else (x y : option string) : option string :=
  match x with
  | Some text => if bool_decide (text = "") then y else x
  | None => y
  end.

Definition run_command (sh : Shell) (cmd : string) : Try string :=
  let p := create_subprocess_shell sh cmd in
  let '(out, err) := communicate p in            (* stdout, stderr = await p.communicate() *)
  let r := ShellResult_init sh (returncode p) out err in
  if bool_decide (status r ≠ 0%Z)
  then Raises (Exception (str_of (or_else (stderr r) (stdout r)) +:+ newline +:+ newline +:+
                          "Status Code: " +:+ pretty (status r)))
  else Returns (str_of (stdout r)).

(** ** [shell] (lines 562-607) and [close_shell_result] (lines 545-558) *)

Definition fence : string := "```".

(** Lines 564-571: the command line that is run. *)
Definition shell_command (command : string) : Try string :=
  if startswith command fence && endswith command fence then
    c4 ← match String.get 4 command with          (* command[4] *)
         | Some c => Returns c
         | None => Raises IndexError
         end;
    let command :=
      if bool_decide (String c4 "" ≠ newline)
      then fence +:+ newline +:+ str_drop 3 command
      else command in
    let command :=
      if bool_decide (str_drop_last 4 command ≠ newline)
      then str_drop_last 3 command +:+ newline +:+ fence
      else command in
    Returns (join newline (inner (split command newline)))
  else Returns (strip (λ c, has_char c ("` " +:+ newline)) command).

Definition close_shell_id : string := "close_shell_result".
Definition close_button : string * string * string :=
  ("Close Shell", close_shell_id, "‚ôªÔ∏è").
Definition warning_sign : string := "‚ö†Ô∏è".
Definition dm_closed : string :=
  "**An error occurred (check logs/terminal or enable your DMs for the next " +:+
  "result to be sent directly to your DMs).**".

(** [kwargs]: a file when the text has more than 2000 characters, else the
    text in a code block. *)
Definition shell_kwargs (text filename : string) : option string * option (string * string) :=
  if bool_decide (2000 < String.length text)%nat
  then (None, Some (filename, text))
  else (Some (fence +:+ "py" +:+ newline +:+ text +:+ fence), None).

(** [dm_open] tells whether [ctx.author.send] goes through; when it does
    not, [disnake.Forbidden] is raised. *)
Definition shell (sh : Shell) (dm_open : bool) (ctx : CustomContext) (command : string)
  : Act unit :=
  command ← lift (shell_command command);
  call Typing;;
  call (RunCommand command);;
  match run_command sh command with
  | Raises (Known (GenericError text)) =>
      let kwargs := shell_kwargs text "error.txt" in
      if dm_open then
        call (SendAuthor kwargs.1 kwargs.2);;
        call (ReactTo (ctx_message ctx) warning_sign)
      else
        call PrintTraceback;;
        throw (Known (GenericError dm_closed))
  | Raises e => throw e
  | Returns result =>
      let kwargs :=
        shell_kwargs result ("shell_result_" +:+ pretty (ctx_message ctx) +:+ ".txt") in
      call (Reply kwargs.1 kwargs.2 [close_button])
  end.

Definition owner_only : string := "**Only my owner can use this button!**".
Definition shell_closed : string :=
  fence +:+ "ini" +:+ newline +:+ "üîí - [Shell Closed!] - üîí" +:+ fence.

(** [is_owner] is the answer of [self.bot.is_owner(inter.author)]. *)
Definition close_shell_result (custom_id : string) (is_owner : bool) : Act unit :=
  if bool_decide (custom_id ≠ close_shell_id) then mret tt
  else if negb is_owner then call (InterSend owner_only true)
  else call (EditResponse shell_closed).

(** What [shell] sends back, and where. *)
Definition replied (c : Call)
  : option (option string * option (string * string) * list (string * string * string)) :=
  match c with
  | Reply content file components => Some (content, file, components)
  | _ => None
  end.

Definition replies (cs : list Call) := omap replied cs.

Definition direct_message (c : Call) : bool :=
  match c with
  | SendAuthor _ _ => true
  | _ => false
  end.

(** The command lines handed to the operating system. *)
Definition ran (c : Call) : option string :=
  match c with
  | RunCommand cmd => Some cmd
  | _ => None
  end.

Definition commands_run (cs : list Call) := omap ran cs.

(** The text after the first newline of [s] (empty without one). *)
Fixpoint after_first_line (s : string) : string :=
  match s with
  | "" => ""
  | String c s' => if decide (String c "" = newline) then s' else after_first_line s'
  end.

(** ** [cleanup_git] (lines 294-313) *)

(** [self.git_init_cmds], as [__init__] builds it (lines 93-98). *)
Definition git_init_cmds (source_repo : string) : list string :=
  [ "git init";
    "git remote add origin " +:+ source_repo;
    "git fetch origin";
    "git --work-tree=. checkout -b main -f --track origin/main" ].

Definition git_rev_parse : string := "git rev-parse HEAD".

(** [str(e)] for the exceptions of [run_command], which raises nothing but
    [Exception]. *)
Definition exception_text (e : Raised) : string :=
  match e with
  | Exception text => text
  | _ => ""
  end.

(** What one pass of the loop adds to [out_git]. *)
Definition git_output (sh : Shell) (c : string) : string :=
  match run_command sh c with
  | Returns text => text +:+ newline                (* (await run_command(c)) + "\n" *)
  | Raises e => exception_text e +:+ newline        (* f"{e}\n" *)
  end.

Fixpoint git_init_loop (sh : Shell) (cmds : list string) (out_git : string) : string :=
  match cmds with
  | [] => out_git
  | c :: rest => git_init_loop sh rest (out_git +:+ git_output sh c)
  end.

(** [self.bot.pool.commit] and [self.bot.pool.remote_git_url]. *)
Record GitPool := { pool_commit : string; remote_git_url : string }.

(** How [shutil.rmtree(path)] ends: the tree is removed, or the path names
    nothing ([FileNotFoundError], the one error [cleanup_git] catches), or
    it raises anything else ([NotADirectoryError], [PermissionError], any
    other [OSError]). *)
Inductive Rmtree :=
| Removed
| FileNotFoundError
| RmtreeRaises (e : Raised).

(** The pool afterwards, the directory [shutil.rmtree] was called on if
    any, the command lines run in order, and the value returned. *)
Record GitRun := {
  pool_after : GitPool;
  rmtree_called : option string;
  git_commands : list string;
  git_result : Try string
}.

(** [init_repo] is [SOURCE_REPO] as it was when the cog was created,
    [source_repo] as it is now; [git_dir] is [os.environ.get("GIT_DIR")];
    [rmtree] tells how [shutil.rmtree] ends on a path. *)
Definition cleanup_git (sh : Shell) (rmtree : string → Rmtree)
    (init_repo source_repo : string) (git_dir : option string) (force : bool)
    (pool : GitPool) : GitRun :=
  let lines_296_300 : Try (option string) :=
    if force then
      match git_dir with
      | None => Raises (KeyError "GIT_DIR")          (* os.environ["GIT_DIR"] *)
      | Some dir =>
          match rmtree dir with
          | Removed => Returns (Some dir)
          | FileNotFoundError => Returns (Some dir)  (* except FileNotFoundError: pass *)
          | RmtreeRaises e => Raises e
          end
      end
    else Returns None in
  match lines_296_300 with
  | Raises e =>
      {| pool_after := pool; rmtree_called := if force then git_dir else None;
         git_commands := []; git_result := Raises e |}
  | Returns called =>
      let out_git := git_init_loop sh (git_init_cmds init_repo) "" in
      match run_command sh git_rev_parse with
      | Raises e =>
          {| pool_after := pool; rmtree_called := called;
             git_commands := git_init_cmds init_repo ++ [git_rev_parse];
             git_result := Raises e |}
      | Returns text =>
          {| pool_after :=
               {| pool_commit := strip (λ c, bool_decide (c = ascii_of_nat 10)) text;
                  remote_git_url := str_drop_last 4 source_repo |};
             rmtree_called := called;
             git_commands := git_init_cmds init_repo ++ [git_rev_parse];
             git_result := Returns out_git |}
      end
  end.

(** ** [reload] (lines 203-246) *)

Definition skins_package : string := "utils.music.skins.".

(** Lines 205-211 on the keys of [sys.modules], in the order [list] gives
    them. *)
Fixpoint purge_skins (names : list string) (sys_modules : gset string) : gset string :=
  match names with
  | [] => sys_modules
  | name :: rest =>
      if negb (startswith name skins_package) then purge_skins rest sys_modules
      else purge_skins rest (sys_modules ∖ {[ name ]})
  end.

(** The dict returned by [load_modules]. *)
Record ModuleData := { loaded : list string; reloaded : list string }.

Definition no_modules_found : string := "**No modules found...**".

Definition loaded_text (names : list string) : string :=
  "**Loaded modules:** " +:+ fence +:+ "ansi" +:+ newline +:+ "[0;34m" +:+
  join " [0;37m| [0;34m" names +:+ fence +:+ newline.

Definition reloaded_text (names : list string) : string :=
  "**Reloaded modules:** " +:+ fence +:+ "ansi" +:+ newline +:+ "[0;32m" +:+
  join " [0;37m| [0;32m" names +:+ fence +:+ newline.

(** Lines 220-225. *)
Fixpoint reload_others (self_bot controller_bot : BotCore) (modules : list string)
    (bots : list BotCore) : Act unit :=
  match bots with
  | [] => mret tt
  | bot :: rest =>
      (if bool_decide (u_id (user bot) ≠ u_id (user self_bot)) then
         call (LoadSkins (u_id (user bot)));;
         call (LoadModules (u_id (user bot)) modules);;
         call (SyncAppCommands (u_id (user bot))
                 (bool_decide (u_id (user bot) = u_id (user controller_bot))))
       else mret tt);;
      reload_others self_bot controller_bot modules rest
  end.

(** Lines 213-246.  [self_bot] is [self.bot]; bots are compared by the id
    of their user; [data] is what [self.bot.load_modules] returns;
    [from_command] tells whether [ctx] is a [CustomContext].  The text is
    returned when it is not. *)
Definition reload (self : Owner) (self_bot controller_bot : BotCore) (data : ModuleData)
    (from_command : bool) (ctx : CustomContext) (modules : list string)
  : Act (option string) :=
  let modules := (λ m, m +:+ ".py") <$> modules in
  call (LoadModules (u_id (user self_bot)) modules);;
  call (LoadSkins (u_id (user self_bot)));;
  call (SyncAppCommands (u_id (user self_bot))
          (bool_decide (u_id (user self_bot) = u_id (user controller_bot))));;
  reload_others self_bot controller_bot modules (pool_bots self);;
  call (SyncCommandCooldowns (u_id (user self_bot)));;
  let txt := "" in
  let txt := if bool_decide (loaded data ≠ []) then txt +:+ loaded_text (loaded data) else txt in
  let txt :=
    if bool_decide (reloaded data ≠ []) then txt +:+ reloaded_text (reloaded data) else txt in
  let txt := if bool_decide (txt = "") then no_modules_found else txt in
  call LoadConfig;;
  if from_command then
    call (SendEmbedView {| description := txt; color := get_color (me (ctx_guild ctx)) |});;
    mret None
  else mret (Some txt).

(** The bots whose application commands were synchronised, in order. *)
Definition synced (c : Call) : option Snowflake :=
  match c with
  | SyncAppCommands bot _ => Some bot
  | _ => None
  end.

Definition bots_synced (cs : list Call) := omap synced cs.

(** The module lists handed to [load_modules]. *)
Definition modules_loaded (c : Call) : option (Snowflake * list string) :=
  match c with
  | LoadModules bot modules => Some (bot, modules)
  | _ => None
  end.

Definition module_loads (cs : list Call) := omap modules_loaded cs.

(** The machine as the next command finds it: the caches of the pool stay,
    the context is a new one. *)
Definition next_invocation (m : Machine) : Machine :=
  {| guild_prefix_cache := guild_prefix_cache m;
     user_prefix_cache := user_prefix_cache m;
     global_guild_data := None;
     global_user_data := None |}.

(** The data last written under [id] in table [db_name], if any. *)
Definition last_written (cs : list Call) (id : Snowflake) (db_name : DBModel)
  : option (gmap string PyValue) :=
  last (omap (λ u : Snowflake * gmap string PyValue * DBModel,
                if bool_decide (u.1.1 = id ∧ u.2 = db_name) then Some u.1.2 else None)
             (updates cs)).

(** The database layer [srv] gives back what the calls [cs] wrote last. *)
Definition serves (srv : Services) (cs : list Call) : Prop :=
  ∀ id db_name data,
    last_written cs id db_name = Some data → get_global_data srv id db_name = data.

(** ** A database and an empty machine to run the commands on *)
Module Desk.
Open Scope Z_scope.

(** Every guild and user starts with an empty prefix. *)
Definition services : Services :=
  {| get_global_data := λ _ db_name,
       match db_name with
       | db_guilds => {[ "prefix" := PyStr "" ]}
       | db_users => {[ "custom_prefix" := PyStr "" ]}
       end;
     escape_markdown := λ s, s;
     default_prefix := "!!" |}.

(** The same, once guild 50 has been given the prefix [>>]. *)
Definition services_after_set : Services :=
  {| get_global_data := λ id db_name,
       match db_name with
       | db_guilds => {[ "prefix" := PyStr (if bool_decide (id = 50) then ">>" else "") ]}
       | db_users => {[ "custom_prefix" := PyStr "" ]}
       end;
     escape_markdown := λ s, s;
     default_prefix := "!!" |}.

Definition machine : Machine :=
  {| guild_prefix_cache := ∅; user_prefix_cache := ∅;
     global_guild_data := None; global_user_data := None |}.

Definition ctx : CustomContext := Scenario.command Scenario.bot_1 Scenario.member_7.
End Desk.

(** The server ids whose decimal form has 18 to 23 characters, the sign of
    a negative number counted. *)
Definition id_in_range (server_id : Z) : Prop :=
  (10 ^ 17 ≤ server_id < 10 ^ 23 ∨ - 10 ^ 22 < server_id ≤ - 10 ^ 16)%Z.

(** An entry that [format_git_log] can take: empty, or with at least four
    pieces between separators. *)
Definition well_split (d : string) : Prop :=
  d = "" ∨ (4 ≤ length (split d git_separator))%nat.

#[global] Instance well_split_dec (d : string) : Decision (well_split d).
Proof. unfold well_split. apply _. Defined.

(** A dict with the four keys that [format_log] reads. *)
Definition has_log_keys (e : gmap string string) : Prop :=
  ∀ k, k ∈ ["commit"; "abbreviated_commit"; "subject"; "timestamp"] → is_Some (e !! k).

(** * Proofs *)

(** ** The eligibility loop is a filter of the pool *)

Lemma free_bots_loop_filter ctx bots acc :
  free_bots_loop ctx bots acc = acc ++ filter (λ b, is_free_bot ctx b) bots.
Proof.
  revert acc. induction bots as [|b rest IH]; intros acc; simpl.
  - by rewrite app_nil_r.
  - rewrite filter_cons. destruct (is_free_bot ctx b) eqn:Hb; rewrite IH.
    + rewrite decide_True; [|done]. by rewrite <- app_assoc.
    + rewrite decide_False; [done|]. simpl. tauto.
Qed.

Lemma free_bots_filter self ctx :
  free_bots self ctx = filter (λ b, is_free_bot ctx b) (pool_bots self).
Proof. unfold free_bots. by rewrite free_bots_loop_filter. Qed.

Lemma is_free_bot_spec ctx b :
  is_free_bot ctx b = true ↔
    bot_ready b = true ∧
    is_Some (get_guild b (ctx_guild_id ctx)) ∧
    ∀ p, players b !! ctx_guild_id ctx = Some p →
         m_id (ctx_author ctx) ∈ voice_states (last_channel p).
Proof.
  unfold is_free_bot.
  destruct (bot_ready b); simpl.
  2: { split; [done|]. intros [Hready _]. discriminate Hready. }
  destruct (get_guild b (ctx_guild_id ctx)) as [g|].
  2: { split; [done|]. intros (_ & Hg & _). by destruct Hg. }
  destruct (players b !! ctx_guild_id ctx) as [p|].
  2: { split; [|done]. intros _. split_and!; [done|by eexists|done]. }
  case_bool_decide as Hin.
  - split; [done|]. intros (_ & _ & Hp). exfalso. apply Hin. by apply Hp.
  - split; [|done]. intros _. split_and!; [done|by eexists|].
    intros p' Hp'. injection Hp' as <-. exact Hin.
Qed.

Lemma addressed_bot_is_free self ctx :
  ctx_bot ctx ∈ pool_bots self →
  bot_ready (ctx_bot ctx) = true →
  is_Some (get_guild (ctx_bot ctx) (ctx_guild_id ctx)) →
  players (ctx_bot ctx) !! g_id (ctx_guild ctx) = None →
  ctx_bot ctx ∈ free_bots self ctx.
Proof.
  intros Hpool Hready Hguild Hnone.
  rewrite free_bots_filter. apply list_elem_of_filter. split; [|done].
  apply Is_true_true, is_free_bot_spec. split_and!; [done..|].
  unfold ctx_guild_id. intros p Hp. congruence.
Qed.

(** ** Laws of the command monad *)

Lemma cmd_bind_ret {A B} (a : A) (k : A → Cmd B) : (mret a ≫= k) = k a.
Proof. unfold mbind, cmd_bind, mret, cmd_ret. simpl. by destruct (k a). Qed.

Lemma voice_channel_some (member : Member) (vs : VoiceState) :
  voice member = Some vs → voice_channel member = mret (vs_channel vs).
Proof. intros H. unfold voice_channel. by rewrite H. Qed.

(** Rewrites the statements whose outcome is known from [H] and the monad
    laws, as far as they go. *)
Ltac run_with H :=
  repeat (progress (rewrite ?H, ?cmd_bind_ret; cbn beta iota zeta)).

(** ** The branches of [summon] *)

Section branches.
Context (self : Owner) (ext : Collaborators) (v : SelectBotVoice)
        (ctx : CustomContext).

(** Lines 614-618: the addressed bot already has a player in the guild. *)
Lemma summon_already_initiated :
  has_player (ctx_bot ctx) (g_id (ctx_guild ctx)) →
  summon self ext v ctx = raise (GenericError already_initiated).
Proof. intros [p Hp]. unfold summon. by rewrite Hp. Qed.

Context (Hnone : players (ctx_bot ctx) !! g_id (ctx_guild ctx) = None)
        (vs : VoiceState) (Hvoice : voice (ctx_author ctx) = Some vs).

(** Line 625 false: the addressed bot is in the requester's voice channel. *)
Lemma summon_in_channel :
  u_id (user (ctx_bot ctx)) ∈ voice_states (vs_channel vs) →
  summon self ext v ctx =
  start_player ext (ctx_bot ctx) ctx (ctx_guild ctx) (Some (ctx_channel ctx)) None.
Proof.
  intros Hin. unfold summon, start_player.
  rewrite Hnone. run_with (voice_channel_some _ _ Hvoice).
  rewrite bool_decide_eq_false_2 by (by intros Hn).
  by run_with (voice_channel_some _ _ Hvoice).
Qed.

(** Line 646 false: at most one free bot. *)
Lemma summon_few_free :
  u_id (user (ctx_bot ctx)) ∉ voice_states (vs_channel vs) →
  (length (free_bots self ctx) ≤ 1)%nat →
  summon self ext v ctx =
  start_player ext (ctx_bot ctx) ctx (ctx_guild ctx) (Some (ctx_channel ctx)) None.
Proof.
  intros Hin Hlen. unfold summon, start_player.
  rewrite Hnone. run_with (voice_channel_some _ _ Hvoice).
  rewrite bool_decide_eq_true_2 by done.
  rewrite bool_decide_eq_false_2 by lia.
  by run_with (voice_channel_some _ _ Hvoice).
Qed.

Context (Hout : u_id (user (ctx_bot ctx)) ∉ voice_states (vs_channel vs))
        (Hmany : 1 < length (free_bots self ctx)).

(** Lines 660-667 and 669-672: the selection ends without a usable choice. *)
Lemma summon_time_is_up :
  v_status v = None →
  summon self ext v ctx =
  mkCmd (selection_prompt self ctx (vs_channel vs) ++
         [EditMessage (prompt_message ctx) None (Some (notice ctx time_is_up))])
        Return_.
Proof.
  intros Hst. unfold summon.
  rewrite Hnone. run_with (voice_channel_some _ _ Hvoice).
  rewrite !bool_decide_eq_true_2 by done.
  run_with (voice_channel_some _ _ Hvoice). by rewrite Hst.
Qed.

Lemma summon_canceled :
  v_status v = Some false →
  summon self ext v ctx =
  mkCmd (selection_prompt self ctx (vs_channel vs) ++
         [EditMessage (prompt_message ctx) None (Some (notice ctx operation_canceled))])
        Return_.
Proof.
  intros Hst. unfold summon.
  rewrite Hnone. run_with (voice_channel_some _ _ Hvoice).
  rewrite !bool_decide_eq_true_2 by done.
  run_with (voice_channel_some _ _ Hvoice). by rewrite Hst.
Qed.

Lemma summon_not_connected :
  v_status v = Some true →
  voice (ctx_author (v_inter v)) = None →
  summon self ext v ctx =
  mkCmd (selection_prompt self ctx (vs_channel vs) ++
         [EditMessage (prompt_message ctx) None (Some (notice ctx not_connected))])
        Return_.
Proof.
  intros Hst Hgone. unfold summon.
  rewrite Hnone. run_with (voice_channel_some _ _ Hvoice).
  rewrite !bool_decide_eq_true_2 by done.
  run_with (voice_channel_some _ _ Hvoice). by rewrite Hst, Hgone.
Qed.

(** Lines 677-680: a choice was made and the requester is still in a
    voice channel; the locals are switched to the chosen bot. *)
Lemma summon_chosen (vs' : VoiceState) :
  v_status v = Some true →
  voice (ctx_author (v_inter v)) = Some vs' →
  let chosen :=
    start_player ext (v_bot v) (v_inter v) (v_guild v)
      (get_channel (v_bot v) (tc_id (ctx_channel (v_inter v))))
      (Some (prompt_message ctx)) in
  summon self ext v ctx =
  mkCmd (selection_prompt self ctx (vs_channel vs) ++ trace chosen) (flow chosen).
Proof.
  intros Hst Hthere chosen. subst chosen. unfold summon.
  rewrite Hnone. run_with (voice_channel_some _ _ Hvoice).
  rewrite !bool_decide_eq_true_2 by done.
  run_with (voice_channel_some _ _ Hvoice). by rewrite Hst, Hthere.
Qed.
End branches.

(** ** What [start_player] does *)

Lemma omap_cons {A B} (f : A → option B) (x : A) (l : list A) :
  omap f (x :: l) =
  match f x with Some y => y :: omap f l | None => omap f l end.
Proof. reflexivity. Qed.

Lemma housekeeping_silent (rest : list Event) :
  Forall (λ e, housekeeping e = true) rest →
  sessions_created rest = [] ∧ connections rest = [] ∧ prompts rest = [].
Proof.
  induction 1 as [|e rest He _ IH]; [done|].
  by destruct e; try discriminate He.
Qed.

Section start_player_facts.
Context (ext : Collaborators) (bot : BotCore) (ctx : CustomContext)
        (guild : Guild) (channel : option TextChannel) (msg : option Message).

Lemma start_player_no_voice :
  voice (ctx_author ctx) = None →
  start_player ext bot ctx guild channel msg = raise AttributeError.
Proof. intros H. unfold start_player, voice_channel. by rewrite H. Qed.

Lemma start_player_cannot_connect vs e :
  voice (ctx_author ctx) = Some vs →
  can_connect ext (vs_channel vs) guild = Some e →
  start_player ext bot ctx guild channel msg = raise e.
Proof.
  intros Hv Hc. unfold start_player.
  run_with (voice_channel_some _ _ Hv). by rewrite Hc.
Qed.

Lemma start_player_no_node vs :
  voice (ctx_author ctx) = Some vs →
  can_connect ext (vs_channel vs) guild = None →
  get_best_node bot = None →
  start_player ext bot ctx guild channel msg = raise (GenericError no_music_servers).
Proof.
  intros Hv Hc Hn. unfold start_player.
  run_with (voice_channel_some _ _ Hv). rewrite Hc. run_with Hn. done.
Qed.

Lemma start_player_ok vs node :
  voice (ctx_author ctx) = Some vs →
  can_connect ext (vs_channel vs) guild = None →
  get_best_node bot = Some node →
  let player := create_player ext ctx bot guild channel in
  ∃ rest,
    trace (start_player ext bot ctx guild channel msg) =
      CreatePlayer ctx bot guild channel ::
      Connect player (vc_id (vs_channel vs)) ::
      started_feedback bot ctx (vs_channel vs) player msg :: rest ∧
    Forall (λ e, housekeeping e = true) rest ∧
    (flow (start_player ext bot ctx guild channel msg) = Next tt ∨
     flow (start_player ext bot ctx guild channel msg) = Hang).
Proof.
  intros Hv Hc Hn player. subst player. unfold start_player.
  run_with (voice_channel_some _ _ Hv). rewrite Hc. run_with Hn.
  destruct (me_voice_polls ext (ctx_guild ctx)) as [n|]; simpl.
  - exists (replicate n (Sleep 1000) ++
            (if is_stage (vs_channel vs)
             then (if manage_permissions ext (vs_channel vs) (me guild)
                   then [EditMe (me guild) false] else []) ++ [Sleep 1500]
             else []) ++
            [ProcessNext (create_player ext ctx bot guild channel)]).
    split_and!.
    + destruct msg, (is_stage (vs_channel vs)),
        (manage_permissions ext (vs_channel vs) (me guild)); simpl;
        by rewrite ?app_nil_r.
    + rewrite !Forall_app. split_and!.
      * by apply Forall_replicate.
      * destruct (is_stage (vs_channel vs)),
          (manage_permissions ext (vs_channel vs) (me guild)); simpl;
          repeat constructor.
      * repeat constructor.
    + left. by destruct msg, (is_stage (vs_channel vs)),
        (manage_permissions ext (vs_channel vs) (me guild)).
  - exists []. split_and!; [by destruct msg|constructor|right; by destruct msg].
Qed.

(** In every case the only player created, if any, is the one of [bot],
    and no selection prompt is shown. *)
Lemma start_player_sessions :
  (sessions_created (trace (start_player ext bot ctx guild channel msg)) = [] ∨
   sessions_created (trace (start_player ext bot ctx guild channel msg)) =
     [(ctx, bot, guild, channel)]) ∧
  prompts (trace (start_player ext bot ctx guild channel msg)) = [].
Proof.
  destruct (voice (ctx_author ctx)) as [vs|] eqn:Hv;
    [|rewrite start_player_no_voice by done; auto].
  destruct (can_connect ext (vs_channel vs) guild) as [e|] eqn:Hc;
    [erewrite start_player_cannot_connect by done; auto|].
  destruct (get_best_node bot) as [node|] eqn:Hn;
    [|erewrite start_player_no_node by done; auto].
  destruct (start_player_ok vs node Hv Hc Hn) as (rest & -> & Hrest & _).
  apply housekeeping_silent in Hrest as (Hs & _ & Hp).
  unfold sessions_created, prompts in *. rewrite !omap_cons, Hs, Hp.
  destruct msg; simpl; auto.
Qed.

Lemma start_player_no_wait :
  WaitView ∉ trace (start_player ext bot ctx guild channel msg).
Proof.
  destruct (voice (ctx_author ctx)) as [vs|] eqn:Hv;
    [|rewrite start_player_no_voice by done; apply not_elem_of_nil].
  destruct (can_connect ext (vs_channel vs) guild) as [e|] eqn:Hc;
    [erewrite start_player_cannot_connect by done; apply not_elem_of_nil|].
  destruct (get_best_node bot) as [node|] eqn:Hn;
    [|erewrite start_player_no_node by done; apply not_elem_of_nil].
  destruct (start_player_ok vs node Hv Hc Hn) as (rest & -> & Hrest & _).
  rewrite !not_elem_of_cons. split_and!; [done|done|by destruct msg|].
  intros Hin. rewrite Forall_forall in Hrest. by apply Hrest in Hin.
Qed.
End start_player_facts.

Lemma start_player_observed ext bot ctx guild channel msg vs node :
  voice (ctx_author ctx) = Some vs →
  can_connect ext (vs_channel vs) guild = None →
  get_best_node bot = Some node →
  let run := start_player ext bot ctx guild channel msg in
  let player := create_player ext ctx bot guild channel in
  sessions_created (trace run) = [(ctx, bot, guild, channel)] ∧
  connections (trace run) = [(player, vc_id (vs_channel vs))] ∧
  prompts (trace run) = [] ∧
  trace run !! 2%nat = Some (started_feedback bot ctx (vs_channel vs) player msg) ∧
  ¬ rejected run.
Proof.
  intros Hv Hc Hn run player. subst run player.
  destruct (start_player_ok ext bot ctx guild channel msg vs node Hv Hc Hn)
    as (rest & Htrace & Hrest & Hflow).
  rewrite Htrace. apply housekeeping_silent in Hrest as (Hs & Hco & Hp).
  unfold sessions_created, connections, prompts in *.
  rewrite !omap_cons, Hs, Hco, Hp.
  split_and!; [by destruct msg..|done|].
  intros [e He]. destruct Hflow as [Hf|Hf]; rewrite Hf in He; discriminate He.
Qed.

(** ** The two bots at work *)

(** Member 7 listens to bot 2 and asks bot 1: both bots are candidates. *)
Example free_bots_for_member_7 :
  free_bots Scenario.pool (Scenario.command Scenario.bot_1 Scenario.member_7) =
  [Scenario.bot_1; Scenario.bot_2].
Proof. vm_compute. reflexivity. Qed.

(** Member 8 is not in the channel of bot 2: only bot 1 is a candidate, and
    bot 1 starts the player without asking. *)
Example free_bots_for_member_8 :
  free_bots Scenario.pool (Scenario.command Scenario.bot_1 Scenario.member_8) =
  [Scenario.bot_1].
Proof. vm_compute. reflexivity. Qed.

Example summon_for_member_8 :
  let ctx := Scenario.command Scenario.bot_1 Scenario.member_8 in
  let player := {| last_channel := Scenario.voice_102; controller_link := "" |} in
  summon Scenario.pool Scenario.ext (Scenario.view None Scenario.member_8) ctx =
  mkCmd [ CreatePlayer ctx Scenario.bot_1 (Scenario.guild_of 1) (Some Scenario.text_60);
          Connect player 102;
          AddReaction 900 thumbs_up;
          Sleep 1000;
          ProcessNext player ]
        (Next tt).
Proof. vm_compute. reflexivity. Qed.

(** Member 7 picks bot 2 on the prompt of bot 1. *)
Example summon_for_member_7 :
  let ctx := Scenario.command Scenario.bot_1 Scenario.member_7 in
  let v := Scenario.view (Some true) Scenario.member_7 in
  let player := {| last_channel := Scenario.voice_101; controller_link := "" |} in
  summon Scenario.pool Scenario.ext v ctx =
  mkCmd [ Send (prompt_message ctx) (notice ctx (choose_bot Scenario.voice_101))
            [Scenario.bot_1; Scenario.bot_2];
          StoreMessage (prompt_message ctx);
          WaitView;
          CreatePlayer (v_inter v) Scenario.bot_2 (Scenario.guild_of 2)
            (Some Scenario.text_60);
          Connect player 101;
          EditMessage (prompt_message ctx)
            (Some (session_started Scenario.voice_101 Scenario.bot_2 player)) None;
          Sleep 1000;
          ProcessNext player ]
        (Next tt).
Proof. vm_compute. reflexivity. Qed.

(** ** Eligibility *)

(** C1. A bot of the pool is put in [free_bots] exactly when it passes every
    step of the policy: it is ready, it can see the guild of the request,
    and, if it already holds a player in that guild, the requester is among
    the members of that player's voice channel.  In particular a bot that
    holds a player there is a candidate if and only if the requester is a
    member of the player's channel. *)
Theorem C1_free_bots_policy (self : Owner) (ctx : CustomContext) (b : BotCore) :
  (b ∈ free_bots self ctx ↔
     b ∈ pool_bots self ∧
     bot_ready b = true ∧
     is_Some (get_guild b (ctx_guild_id ctx)) ∧
     (∀ p, players b !! ctx_guild_id ctx = Some p →
           m_id (ctx_author ctx) ∈ voice_states (last_channel p))) ∧
  (bot_ready b = false → b ∉ free_bots self ctx) ∧
  (get_guild b (ctx_guild_id ctx) = None → b ∉ free_bots self ctx) ∧
  (∀ p, b ∈ pool_bots self → bot_ready b = true →
        is_Some (get_guild b (ctx_guild_id ctx)) →
        players b !! ctx_guild_id ctx = Some p →
        (b ∈ free_bots self ctx ↔
         m_id (ctx_author ctx) ∈ voice_states (last_channel p))).
Proof.
  assert (Hiff : b ∈ free_bots self ctx ↔
     b ∈ pool_bots self ∧ bot_ready b = true ∧
     is_Some (get_guild b (ctx_guild_id ctx)) ∧
     (∀ p, players b !! ctx_guild_id ctx = Some p →
           m_id (ctx_author ctx) ∈ voice_states (last_channel p))).
  { rewrite free_bots_filter, list_elem_of_filter, Is_true_true, is_free_bot_spec.
    tauto. }
  split_and!.
  - exact Hiff.
  - intros Hready [_ [Hr _]]%Hiff. congruence.
  - intros Hguild [_ [_ [[g Hg] _]]]%Hiff. congruence.
  - intros p Hpool Hready Hguild Hp. rewrite Hiff. split.
    + intros (_ & _ & _ & Hmem). by apply Hmem.
    + intros Hmem. split_and!; [done..|]. intros p' Hp'. congruence.
Qed.

(** The candidates keep the order of the pool. *)
Lemma free_bots_sublist (self : Owner) (ctx : CustomContext) :
  free_bots self ctx `sublist_of` pool_bots self.
Proof. rewrite free_bots_filter. apply sublist_filter. Qed.

(** ** One player per bot and guild *)

(** C2, as the code has it.  A request sent to a bot that already holds a
    player in the guild is refused with [GenericError] before anything else
    is done: no call is made and no second player is created on that bot. *)
Theorem C2_addressed_bot_with_player_is_refused
    (self : Owner) (ext : Collaborators) (v : SelectBotVoice) (ctx : CustomContext) :
  has_player (ctx_bot ctx) (g_id (ctx_guild ctx)) →
  rejected (summon self ext v ctx) ∧
  flow (summon self ext v ctx) = Raise (GenericError already_initiated) ∧
  trace (summon self ext v ctx) = [] ∧
  sessions_created (trace (summon self ext v ctx)) = [].
Proof.
  intros Hp. rewrite summon_already_initiated by done.
  split_and!; [by eexists|done..].
Qed.

(** C2 fails across the pool: bot 2 holds a player in guild 50, and the
    request of member 8, sent to bot 1, is not refused; it creates a player
    for the same guild on bot 1. *)
Lemma C2_second_player_in_guild :
  Scenario.bot_2 ∈ pool_bots Scenario.pool ∧
  has_player Scenario.bot_2 50 ∧
  ctx_guild_id (Scenario.command Scenario.bot_1 Scenario.member_8) = 50%Z ∧
  flow (summon Scenario.pool Scenario.ext (Scenario.view None Scenario.member_8)
          (Scenario.command Scenario.bot_1 Scenario.member_8)) = Next tt ∧
  sessions_created
    (trace (summon Scenario.pool Scenario.ext (Scenario.view None Scenario.member_8)
              (Scenario.command Scenario.bot_1 Scenario.member_8))) =
  [(Scenario.command Scenario.bot_1 Scenario.member_8, Scenario.bot_1,
    Scenario.guild_of 1, Some Scenario.text_60)].
Proof.
  split_and!.
  - unfold Scenario.pool. simpl. set_solver.
  - unfold has_player. vm_compute. by eexists.
  - reflexivity.
  - vm_compute. reflexivity.
  - vm_compute. reflexivity.
Qed.

Lemma C2_witness :
  let ctx := Scenario.command Scenario.bot_2 Scenario.member_7 in
  let run := summon Scenario.pool Scenario.ext (Scenario.view None Scenario.member_7) ctx in
  has_player (ctx_bot ctx) (g_id (ctx_guild ctx)) ∧
  rejected run ∧ flow run = Raise (GenericError already_initiated) ∧
  trace run = [] ∧ sessions_created (trace run) = [].
Proof.
  intros ctx run.
  assert (Hp : has_player (ctx_bot ctx) (g_id (ctx_guild ctx))).
  { unfold has_player. vm_compute. by eexists. }
  split; [exact Hp|].
  exact (C2_addressed_bot_with_player_is_refused
           Scenario.pool Scenario.ext (Scenario.view None Scenario.member_7) ctx Hp).
Defined.

(** ** At most one candidate: no prompt, the addressed bot serves *)

(** C3. A request is received by a ready bot of the pool that sees the
    guild and holds no player there.  When the eligibility loop yields
    exactly one bot for it, that bot is the addressed bot itself: no prompt
    is shown, no selection is awaited, and the only player the command can
    create is the one of that bot, which it does create, and connects to
    the requester's voice channel, when [can_connect] passes and a node is
    available. *)
Theorem C3_single_candidate_gets_the_session
    (self : Owner) (ext : Collaborators) (v : SelectBotVoice) (ctx : CustomContext)
    (vs : VoiceState) (b : BotCore) :
  ctx_bot ctx ∈ pool_bots self →
  bot_ready (ctx_bot ctx) = true →
  is_Some (get_guild (ctx_bot ctx) (ctx_guild_id ctx)) →
  players (ctx_bot ctx) !! g_id (ctx_guild ctx) = None →
  voice (ctx_author ctx) = Some vs →
  u_id (user (ctx_bot ctx)) ∉ voice_states (vs_channel vs) →
  free_bots self ctx = [b] →
  let run := summon self ext v ctx in
  b = ctx_bot ctx ∧
  prompts (trace run) = [] ∧
  (WaitView ∉ trace run) ∧
  (session_bots (trace run) = [] ∨ session_bots (trace run) = [b]) ∧
  (can_connect ext (vs_channel vs) (ctx_guild ctx) = None →
   is_Some (get_best_node b) →
   sessions_created (trace run) = [(ctx, b, ctx_guild ctx, Some (ctx_channel ctx))] ∧
   connections (trace run) =
     [(create_player ext ctx b (ctx_guild ctx) (Some (ctx_channel ctx)),
       vc_id (vs_channel vs))] ∧
   ¬ rejected run).
Proof.
  intros Hpool Hready Hguild Hnone Hvoice Hout Hfree run. subst run.
  assert (b = ctx_bot ctx) as ->.
  { pose proof (addressed_bot_is_free self ctx Hpool Hready Hguild Hnone) as Hin.
    rewrite Hfree in Hin. by apply list_elem_of_singleton in Hin. }
  rewrite (summon_few_free self ext v ctx Hnone vs Hvoice Hout)
    by (rewrite Hfree; simpl; lia).
  split_and!.
  - done.
  - apply start_player_sessions.
  - apply start_player_no_wait.
  - unfold session_bots.
    destruct (start_player_sessions ext (ctx_bot ctx) ctx (ctx_guild ctx)
                (Some (ctx_channel ctx)) None) as [[-> | ->] _]; auto.
  - intros Hconnect [node Hnode].
    destruct (start_player_observed ext (ctx_bot ctx) ctx (ctx_guild ctx)
                (Some (ctx_channel ctx)) None vs node Hvoice Hconnect Hnode)
      as (Hs & Hc & _ & _ & Hr).
    done.
Qed.

Lemma C3_witness :
  let self := Scenario.pool in
  let ctx := Scenario.command Scenario.bot_1 Scenario.member_8 in
  let run := summon self Scenario.ext (Scenario.view None Scenario.member_8) ctx in
  free_bots self ctx = [Scenario.bot_1] ∧
  Scenario.bot_1 = ctx_bot ctx ∧
  prompts (trace run) = [] ∧
  (WaitView ∉ trace run) ∧
  (session_bots (trace run) = [] ∨ session_bots (trace run) = [Scenario.bot_1]) ∧
  (can_connect Scenario.ext Scenario.voice_102 (ctx_guild ctx) = None →
   is_Some (get_best_node Scenario.bot_1) →
   sessions_created (trace run) =
     [(ctx, Scenario.bot_1, ctx_guild ctx, Some (ctx_channel ctx))] ∧
   connections (trace run) =
     [(create_player Scenario.ext ctx Scenario.bot_1 (ctx_guild ctx)
         (Some (ctx_channel ctx)), 102%Z)] ∧
   ¬ rejected run).
Proof.
  intros self ctx run.
  assert (Hfree : free_bots self ctx = [Scenario.bot_1]) by (vm_compute; reflexivity).
  split; [exact Hfree|].
  apply (C3_single_candidate_gets_the_session self Scenario.ext
           (Scenario.view None Scenario.member_8) ctx
           {| vs_channel := Scenario.voice_102 |} Scenario.bot_1).
  - apply elem_of_cons. by left.
  - reflexivity.
  - by eexists.
  - vm_compute. reflexivity.
  - reflexivity.
  - compute_done.
  - exact Hfree.
Defined.



(** ** Several candidates: the selection *)

Section selection.
Context (self : Owner) (ext : Collaborators) (v : SelectBotVoice)
        (ctx : CustomContext) (vs : VoiceState).
Context (Hnone : players (ctx_bot ctx) !! g_id (ctx_guild ctx) = None)
        (Hvoice : voice (ctx_author ctx) = Some vs)
        (Hout : u_id (user (ctx_bot ctx)) ∉ voice_states (vs_channel vs))
        (Hmany : (1 < length (free_bots self ctx))%nat).

(** Whatever the selection yields, the execution starts with the prompt
    and the wait on it. *)
Lemma summon_selection_prefix :
  ∃ rest, trace (summon self ext v ctx) =
          selection_prompt self ctx (vs_channel vs) ++ rest.
Proof.
  destruct (v_status v) as [[|]|] eqn:Hst.
  - destruct (voice (ctx_author (v_inter v))) as [vs'|] eqn:Hthere.
    + rewrite (summon_chosen self ext v ctx Hnone vs Hvoice Hout Hmany vs' Hst Hthere).
      by eexists.
    + rewrite (summon_not_connected self ext v ctx Hnone vs Hvoice Hout Hmany Hst Hthere).
      by eexists.
  - rewrite (summon_canceled self ext v ctx Hnone vs Hvoice Hout Hmany Hst).
    by eexists.
  - rewrite (summon_time_is_up self ext v ctx Hnone vs Hvoice Hout Hmany Hst).
    by eexists.
Qed.
End selection.

(** C5. With more than one free bot the command posts the selection prompt
    listing exactly the free bots and waits for the selection; up to that
    wait it has created no player and connected none, so nothing is claimed
    before the selection has ended. *)
Theorem C5_selection_precedes_any_player
    (self : Owner) (ext : Collaborators) (v : SelectBotVoice) (ctx : CustomContext)
    (vs : VoiceState) :
  players (ctx_bot ctx) !! g_id (ctx_guild ctx) = None →
  voice (ctx_author ctx) = Some vs →
  u_id (user (ctx_bot ctx)) ∉ voice_states (vs_channel vs) →
  (1 < length (free_bots self ctx))%nat →
  ∃ rest,
    trace (summon self ext v ctx) =
      [ Send (prompt_message ctx) (notice ctx (choose_bot (vs_channel vs)))
          (free_bots self ctx);
        StoreMessage (prompt_message ctx);
        WaitView ] ++ rest ∧
    sessions_created (selection_prompt self ctx (vs_channel vs)) = [] ∧
    connections (selection_prompt self ctx (vs_channel vs)) = [].
Proof.
  intros Hnone Hvoice Hout Hmany.
  destruct (summon_selection_prefix self ext v ctx vs Hnone Hvoice Hout Hmany)
    as [rest Hrest].
  exists rest. split; [exact Hrest|]. split; reflexivity.
Qed.

Lemma C5_witness :
  let ctx := Scenario.command Scenario.bot_1 Scenario.member_7 in
  let v := Scenario.view (Some true) Scenario.member_7 in
  (1 < length (free_bots Scenario.pool ctx))%nat ∧
  ∃ rest,
    trace (summon Scenario.pool Scenario.ext v ctx) =
      [ Send (prompt_message ctx) (notice ctx (choose_bot Scenario.voice_101))
          (free_bots Scenario.pool ctx);
        StoreMessage (prompt_message ctx);
        WaitView ] ++ rest ∧
    sessions_created (selection_prompt Scenario.pool ctx Scenario.voice_101) = [] ∧
    connections (selection_prompt Scenario.pool ctx Scenario.voice_101) = [].
Proof.
  intros ctx v.
  assert (Hmany : (1 < length (free_bots Scenario.pool ctx))%nat) by (vm_compute; lia).
  split; [exact Hmany|].
  apply (C5_selection_precedes_any_player Scenario.pool Scenario.ext v ctx
           {| vs_channel := Scenario.voice_101 |}).
  - vm_compute. reflexivity.
  - reflexivity.
  - compute_done.
  - exact Hmany.
Defined.

(** C6. When the selection ends with a choice but the member who chose is
    no longer in a voice channel, the command edits the prompt to say so and
    returns: no player is created and none is connected, on the chosen bot
    or on any other. *)
Theorem C6_choice_without_voice_aborts
    (self : Owner) (ext : Collaborators) (v : SelectBotVoice) (ctx : CustomContext)
    (vs : VoiceState) :
  players (ctx_bot ctx) !! g_id (ctx_guild ctx) = None →
  voice (ctx_author ctx) = Some vs →
  u_id (user (ctx_bot ctx)) ∉ voice_states (vs_channel vs) →
  (1 < length (free_bots self ctx))%nat →
  v_status v = Some true →
  voice (ctx_author (v_inter v)) = None →
  summon self ext v ctx =
    mkCmd (selection_prompt self ctx (vs_channel vs) ++
           [EditMessage (prompt_message ctx) None (Some (notice ctx not_connected))])
          Return_ ∧
  sessions_created (trace (summon self ext v ctx)) = [] ∧
  connections (trace (summon self ext v ctx)) = [].
Proof.
  intros Hnone Hvoice Hout Hmany Hst Hgone.
  rewrite (summon_not_connected self ext v ctx Hnone vs Hvoice Hout Hmany Hst Hgone).
  split_and!; reflexivity.
Qed.

Lemma C6_witness :
  let ctx := Scenario.command Scenario.bot_1 Scenario.member_7 in
  let v := Scenario.view (Some true) Scenario.member_7_gone in
  voice (ctx_author (v_inter v)) = None ∧
  summon Scenario.pool Scenario.ext v ctx =
    mkCmd (selection_prompt Scenario.pool ctx Scenario.voice_101 ++
           [EditMessage (prompt_message ctx) None (Some (notice ctx not_connected))])
          Return_ ∧
  sessions_created (trace (summon Scenario.pool Scenario.ext v ctx)) = [] ∧
  connections (trace (summon Scenario.pool Scenario.ext v ctx)) = [].
Proof.
  intros ctx v. split; [reflexivity|].
  apply (C6_choice_without_voice_aborts Scenario.pool Scenario.ext v ctx
           {| vs_channel := Scenario.voice_101 |}).
  - vm_compute. reflexivity.
  - reflexivity.
  - compute_done.
  - vm_compute. lia.
  - reflexivity.
  - reflexivity.
Defined.

(** C7. When the selection ends by timeout ([v.status is None]) or by
    cancellation ([v.status is False]), the command edits the prompt into
    the matching notice and returns: it raises nothing and creates no
    player. *)
Theorem C7_timeout_or_cancel_ends_with_a_notice
    (self : Owner) (ext : Collaborators) (v : SelectBotVoice) (ctx : CustomContext)
    (vs : VoiceState) :
  players (ctx_bot ctx) !! g_id (ctx_guild ctx) = None →
  voice (ctx_author ctx) = Some vs →
  u_id (user (ctx_bot ctx)) ∉ voice_states (vs_channel vs) →
  (1 < length (free_bots self ctx))%nat →
  v_status v = None ∨ v_status v = Some false →
  summon self ext v ctx =
    mkCmd (selection_prompt self ctx (vs_channel vs) ++
           [EditMessage (prompt_message ctx) None
              (Some (notice ctx (match v_status v with
                                 | None => time_is_up
                                 | Some _ => operation_canceled
                                 end)))])
          Return_ ∧
  ¬ rejected (summon self ext v ctx) ∧
  sessions_created (trace (summon self ext v ctx)) = [] ∧
  connections (trace (summon self ext v ctx)) = [].
Proof.
  intros Hnone Hvoice Hout Hmany [Hst|Hst]; rewrite Hst.
  - rewrite (summon_time_is_up self ext v ctx Hnone vs Hvoice Hout Hmany Hst).
    split_and!; try reflexivity. by intros [e He].
  - rewrite (summon_canceled self ext v ctx Hnone vs Hvoice Hout Hmany Hst).
    split_and!; try reflexivity. by intros [e He].
Qed.

Lemma C7_witness :
  let ctx := Scenario.command Scenario.bot_1 Scenario.member_7 in
  let v := Scenario.view (Some false) Scenario.member_7 in
  summon Scenario.pool Scenario.ext v ctx =
    mkCmd (selection_prompt Scenario.pool ctx Scenario.voice_101 ++
           [EditMessage (prompt_message ctx) None
              (Some (notice ctx operation_canceled))])
          Return_ ∧
  ¬ rejected (summon Scenario.pool Scenario.ext v ctx) ∧
  sessions_created (trace (summon Scenario.pool Scenario.ext v ctx)) = [] ∧
  connections (trace (summon Scenario.pool Scenario.ext v ctx)) = [].
Proof.
  intros ctx v.
  apply (C7_timeout_or_cancel_ends_with_a_notice Scenario.pool Scenario.ext v ctx
           {| vs_channel := Scenario.voice_101 |}).
  - vm_compute. reflexivity.
  - reflexivity.
  - compute_done.
  - vm_compute. lia.
  - right. reflexivity.
Defined.

(** ** [create_player] raises *)

Lemma cmd_bind_assoc {A B C} (c : Cmd A) (f : A → Cmd B) (g : B → Cmd C) :
  (c ≫= f) ≫= g = c ≫= (λ a, f a ≫= g).
Proof.
  destruct c as [t [a| |e|]]; unfold mbind, cmd_bind; simpl; try done.
  destruct (f a) as [t' [b| |e|]]; simpl; try done.
  destruct (g b) as [t'' fl]; simpl. destruct fl; by rewrite app_assoc.
Qed.

(** [summon] is lines 612-680 followed by [start_player]. *)
Lemma summon_locals_then_start self ext v ctx :
  summon self ext v ctx =
  '(bot, ctx, guild, channel, msg) ← summon_locals self v ctx;
  start_player ext bot ctx guild channel msg.
Proof.
  unfold summon, summon_locals.
  destruct (players (ctx_bot ctx) !! g_id (ctx_guild ctx)); [reflexivity|].
  rewrite !cmd_bind_ret. cbn zeta. symmetry. apply cmd_bind_assoc.
Qed.

Section attempt.
Context (ext : Collaborators) (attempt : Attempt) (bot : BotCore) (ctx : CustomContext)
        (guild : Guild) (channel : option TextChannel) (msg : option Message).

Lemma start_player_attempt_returns :
  attempt ctx bot guild channel = None →
  start_player_attempt ext attempt bot ctx guild channel msg =
  start_player ext bot ctx guild channel msg.
Proof.
  intros Hret. unfold start_player_attempt, start_player.
  destruct (voice (ctx_author ctx)) as [vs|] eqn:Hv;
    [|unfold voice_channel; by rewrite Hv].
  run_with (voice_channel_some _ _ Hv).
  destruct (can_connect ext (vs_channel vs) guild); [reflexivity|].
  rewrite !cmd_bind_ret.
  destruct (get_best_node bot); [|reflexivity].
  rewrite Hret. reflexivity.
Qed.

Lemma start_player_attempt_raises vs node e :
  voice (ctx_author ctx) = Some vs →
  can_connect ext (vs_channel vs) guild = None →
  get_best_node bot = Some node →
  attempt ctx bot guild channel = Some e →
  start_player_attempt ext attempt bot ctx guild channel msg =
  mkCmd [CreatePlayer ctx bot guild channel] (Raise e).
Proof.
  intros Hv Hc Hn He. unfold start_player_attempt.
  run_with (voice_channel_some _ _ Hv). rewrite Hc. run_with Hn. by rewrite He.
Qed.

Lemma start_player_attempt_cases :
  (start_player_attempt ext attempt bot ctx guild channel msg =
     start_player ext bot ctx guild channel msg ∧
   (attempt ctx bot guild channel = None ∨
    sessions_created (trace (start_player ext bot ctx guild channel msg)) = [])) ∨
  (∃ e, attempt ctx bot guild channel = Some e ∧
        start_player_attempt ext attempt bot ctx guild channel msg =
        mkCmd [CreatePlayer ctx bot guild channel] (Raise e)).
Proof.
  destruct (attempt ctx bot guild channel) as [e|] eqn:He;
    [|left; split; [by apply start_player_attempt_returns|by left]].
  destruct (voice (ctx_author ctx)) as [vs|] eqn:Hv.
  2: { left. rewrite start_player_no_voice by done. split; [|by right].
       unfold start_player_attempt, voice_channel. by rewrite Hv. }
  destruct (can_connect ext (vs_channel vs) guild) as [e'|] eqn:Hc.
  { left. rewrite (start_player_cannot_connect _ _ _ _ _ _ vs e') by done.
    split; [|by right].
    unfold start_player_attempt. run_with (voice_channel_some _ _ Hv). by rewrite Hc. }
  destruct (get_best_node bot) as [node|] eqn:Hn.
  2: { left. rewrite (start_player_no_node _ _ _ _ _ _ vs) by done. split; [|by right].
       unfold start_player_attempt. run_with (voice_channel_some _ _ Hv). rewrite Hc.
       by run_with Hn. }
  right. exists e. split; [done|]. by eapply start_player_attempt_raises.
Qed.
End attempt.

(** Lines 612-680 create no player, connect nothing and show at most one
    prompt. *)
Lemma summon_locals_quiet self v ctx :
  sessions_created (trace (summon_locals self v ctx)) = [] ∧
  connections (trace (summon_locals self v ctx)) = [] ∧
  (length (prompts (trace (summon_locals self v ctx))) ≤ 1)%nat.
Proof.
  unfold summon_locals.
  destruct (players (ctx_bot ctx) !! g_id (ctx_guild ctx)); [simpl; auto|].
  rewrite cmd_bind_ret. unfold voice_channel.
  destruct (voice (ctx_author ctx)) as [vs|]; [|simpl; auto].
  rewrite !cmd_bind_ret. cbn zeta.
  case_bool_decide; [|simpl; auto].
  case_bool_decide; [|simpl; auto].
  destruct (v_status v) as [[|]|]; [|simpl; auto..].
  destruct (voice (ctx_author (v_inter v))); simpl; auto.
Qed.

Lemma created_in_trace (t : list Event) inter bot guild channel :
  CreatePlayer inter bot guild channel ∈ t →
  (inter, bot, guild, channel) ∈ sessions_created t.
Proof.
  intros Hin. apply list_elem_of_omap. by exists (CreatePlayer inter bot guild channel).
Qed.

Lemma summon_attempt_returns self ext attempt v ctx :
  (∀ inter bot guild channel, attempt inter bot guild channel = None) →
  summon_attempt self ext attempt v ctx = summon self ext v ctx.
Proof.
  intros Hret. rewrite summon_locals_then_start. unfold summon_attempt.
  destruct (summon_locals self v ctx) as [t [[[[[bot ctx'] guild] channel] msg]| |e|]];
    unfold mbind, cmd_bind; cbn [trace flow]; [|done..].
  by rewrite start_player_attempt_returns.
Qed.

(** C8, as the code has it.  A refusal of the claim reaches the command
    as an exception of [create_player].  Whenever a call of [create_player]
    made by the command raises, that call is the only one and the last
    thing the command does: nothing is retried, the candidates are not
    evaluated again, nothing is connected, and the exception leaves the
    command towards the requester. *)
Theorem C8_create_player_error_leaves_the_command
    (self : Owner) (ext : Collaborators) (attempt : Attempt) (v : SelectBotVoice)
    (ctx inter : CustomContext) (bot : BotCore) (guild : Guild)
    (channel : option TextChannel) (e : Exn) :
  CreatePlayer inter bot guild channel ∈ trace (summon_attempt self ext attempt v ctx) →
  attempt inter bot guild channel = Some e →
  let run := summon_attempt self ext attempt v ctx in
  flow run = Raise e ∧
  sessions_created (trace run) = [(inter, bot, guild, channel)] ∧
  last (trace run) = Some (CreatePlayer inter bot guild channel) ∧
  connections (trace run) = [] ∧
  (length (prompts (trace run)) ≤ 1)%nat.
Proof.
  intros Hin He run. subst run. revert Hin. unfold summon_attempt.
  destruct (summon_locals_quiet self v ctx) as (Hs & Hc & Hp).
  destruct (summon_locals self v ctx) as [t [[[[[bot' ctx'] guild'] channel'] msg']| |e'|]];
    unfold mbind, cmd_bind; cbn [trace flow] in *.
  2-4: intros Hin; apply created_in_trace in Hin; rewrite Hs in Hin;
       by apply elem_of_nil in Hin.
  intros Hin. apply elem_of_app in Hin as [Hin|Hin].
  { apply created_in_trace in Hin. rewrite Hs in Hin. by apply elem_of_nil in Hin. }
  destruct (start_player_attempt_cases ext attempt bot' ctx' guild' channel' msg')
    as [[Heq Hnot]|(e' & He' & Heq)]; rewrite Heq in Hin |- *.
  - exfalso. apply created_in_trace in Hin.
    destruct (start_player_sessions ext bot' ctx' guild' channel' msg') as [[Hnone|Hone] _].
    + rewrite Hnone in Hin. by apply elem_of_nil in Hin.
    + rewrite Hone in *. apply list_elem_of_singleton in Hin. injection Hin as -> -> -> ->.
      destruct Hnot as [Hnot|Hnot]; congruence.
  - cbn [trace flow] in *. apply list_elem_of_singleton in Hin.
    injection Hin as -> -> -> ->. assert (e' = e) as -> by congruence.
    unfold sessions_created, connections, prompts in *.
    rewrite !omap_app, Hs, Hc, last_snoc, length_app. simpl. split_and!; [done..|lia].
Qed.

(** C8 fails: member 8 asks bot 1, the only candidate, and [create_player]
    raises; there is one call, no retry, and the exception ends the
    command. *)
Lemma C8_create_player_error_surfaces_without_retry :
  let ctx := Scenario.command Scenario.bot_1 Scenario.member_8 in
  let attempt : Attempt := λ _ _ _ _, Some (GenericError already_initiated) in
  free_bots Scenario.pool ctx = [Scenario.bot_1] ∧
  summon_attempt Scenario.pool Scenario.ext attempt
    (Scenario.view None Scenario.member_8) ctx =
  mkCmd [CreatePlayer ctx Scenario.bot_1 (Scenario.guild_of 1) (Some Scenario.text_60)]
        (Raise (GenericError already_initiated)).
Proof. split; vm_compute; reflexivity. Qed.

Lemma C8_witness :
  let ctx := Scenario.command Scenario.bot_1 Scenario.member_7 in
  let v := Scenario.view (Some true) Scenario.member_7 in
  let attempt : Attempt := λ _ bot _ _,
    if bool_decide (u_id (user bot) = 2%Z) then Some (GenericError already_initiated)
    else None in
  let run := summon_attempt Scenario.pool Scenario.ext attempt v ctx in
  flow run = Raise (GenericError already_initiated) ∧
  sessions_created (trace run) =
    [(v_inter v, Scenario.bot_2, Scenario.guild_of 2, Some Scenario.text_60)] ∧
  last (trace run) =
    Some (CreatePlayer (v_inter v) Scenario.bot_2 (Scenario.guild_of 2)
            (Some Scenario.text_60)) ∧
  connections (trace run) = [] ∧
  (length (prompts (trace run)) ≤ 1)%nat.
Proof.
  intros ctx v attempt.
  apply (C8_create_player_error_leaves_the_command Scenario.pool Scenario.ext attempt v ctx
           (v_inter v) Scenario.bot_2 (Scenario.guild_of 2) (Some Scenario.text_60)
           (GenericError already_initiated)).
  - apply (list_elem_of_lookup_2 _ 3%nat). vm_compute. reflexivity.
  - reflexivity.
Defined.

(** ** Handoff to the chosen bot *)





(** ** The addressed bot is already with the requester *)

(** C10. When the addressed bot is already in the requester's voice
    channel, the candidates play no part and no prompt is shown: the outcome
    is the same for every pool and every selection, and the only player the
    command can create is the one of the addressed bot, which it does create
    when that bot has no player yet, [can_connect] passes and a node is
    available. *)
Theorem C10_addressed_bot_in_channel_serves_directly
    (self : Owner) (ext : Collaborators) (v : SelectBotVoice) (ctx : CustomContext)
    (vs : VoiceState) :
  voice (ctx_author ctx) = Some vs →
  u_id (user (ctx_bot ctx)) ∈ voice_states (vs_channel vs) →
  let run := summon self ext v ctx in
  (∀ self' v', summon self' ext v' ctx = run) ∧
  prompts (trace run) = [] ∧
  (WaitView ∉ trace run) ∧
  (sessions_created (trace run) = [] ∨
   sessions_created (trace run) =
     [(ctx, ctx_bot ctx, ctx_guild ctx, Some (ctx_channel ctx))]) ∧
  (players (ctx_bot ctx) !! g_id (ctx_guild ctx) = None →
   can_connect ext (vs_channel vs) (ctx_guild ctx) = None →
   is_Some (get_best_node (ctx_bot ctx)) →
   sessions_created (trace run) =
     [(ctx, ctx_bot ctx, ctx_guild ctx, Some (ctx_channel ctx))] ∧
   connections (trace run) =
     [(create_player ext ctx (ctx_bot ctx) (ctx_guild ctx) (Some (ctx_channel ctx)),
       vc_id (vs_channel vs))] ∧
   ¬ rejected run).
Proof.
  intros Hvoice Hin run. subst run.
  destruct (players (ctx_bot ctx) !! g_id (ctx_guild ctx)) as [p|] eqn:Hplayers.
  - assert (Hp : has_player (ctx_bot ctx) (g_id (ctx_guild ctx))).
    { by exists p. }
    split_and!.
    + intros self' v'. by rewrite !summon_already_initiated.
    + by rewrite summon_already_initiated.
    + rewrite summon_already_initiated by done. apply not_elem_of_nil.
    + left. by rewrite summon_already_initiated.
    + done.
  - pose proof (λ self' v', summon_in_channel self' ext v' ctx Hplayers vs Hvoice Hin)
      as Hdirect.
    split_and!.
    + intros self' v'. by rewrite !Hdirect.
    + rewrite Hdirect. apply start_player_sessions.
    + rewrite Hdirect. apply start_player_no_wait.
    + rewrite Hdirect. apply start_player_sessions.
    + intros _ Hconnect [node Hnode]. rewrite Hdirect.
      destruct (start_player_observed ext (ctx_bot ctx) ctx (ctx_guild ctx)
                  (Some (ctx_channel ctx)) None vs node Hvoice Hconnect Hnode)
        as (Hs & Hc & _ & _ & Hr).
      done.
Qed.

Lemma C10_witness :
  let ctx := Scenario.command Scenario.bot_3 Scenario.member_9 in
  let v := Scenario.view None Scenario.member_9 in
  let run := summon Scenario.pool Scenario.ext v ctx in
  u_id (user (ctx_bot ctx)) ∈ voice_states Scenario.voice_103 ∧
  (∀ self' v', summon self' Scenario.ext v' ctx = run) ∧
  prompts (trace run) = [] ∧
  (WaitView ∉ trace run) ∧
  (sessions_created (trace run) = [] ∨
   sessions_created (trace run) =
     [(ctx, ctx_bot ctx, ctx_guild ctx, Some (ctx_channel ctx))]) ∧
  (players (ctx_bot ctx) !! g_id (ctx_guild ctx) = None →
   can_connect Scenario.ext Scenario.voice_103 (ctx_guild ctx) = None →
   is_Some (get_best_node (ctx_bot ctx)) →
   sessions_created (trace run) =
     [(ctx, ctx_bot ctx, ctx_guild ctx, Some (ctx_channel ctx))] ∧
   connections (trace run) =
     [(create_player Scenario.ext ctx (ctx_bot ctx) (ctx_guild ctx)
         (Some (ctx_channel ctx)), 103%Z)] ∧
   ¬ rejected run).
Proof.
  intros ctx v run.
  assert (Hin : u_id (user (ctx_bot ctx)) ∈ voice_states Scenario.voice_103)
    by compute_done.
  split; [exact Hin|].
  apply (C10_addressed_bot_in_channel_serves_directly Scenario.pool Scenario.ext v ctx
           {| vs_channel := Scenario.voice_103 |}).
  - reflexivity.
  - exact Hin.
Defined.


(** * The other commands: proofs *)

(** ** Strings *)

Lemma str_app_cons (c : ascii) (s t : string) : String c s +:+ t = String c (s +:+ t).
Proof. reflexivity. Qed.

Lemma str_app_nil_r (s : string) : s +:+ "" = s.
Proof. induction s as [|c s IH]; [done|]. by rewrite str_app_cons, IH. Qed.

Lemma str_app_assoc (a b c : string) : (a +:+ b) +:+ c = a +:+ (b +:+ c).
Proof. induction a as [|x a IH]; [done|]. by rewrite !str_app_cons, IH. Qed.

Lemma str_length_app (a b : string) :
  String.length (a +:+ b) = (String.length a + String.length b)%nat.
Proof. induction a as [|x a IH]; [done|]. rewrite str_app_cons. simpl. by rewrite IH. Qed.

Lemma prefix_app (sep rest : string) : String.prefix sep (sep +:+ rest) = true.
Proof.
  induction sep as [|c sep IH]; [by destruct rest|].
  rewrite str_app_cons. simpl. by destruct (ascii_dec c c).
Qed.

Lemma prefix_head_ne (c b : ascii) (sep s : string) :
  b ≠ c → String.prefix (String c sep) (String b s) = false.
Proof. intros Hne. simpl. by destruct (ascii_dec c b) as [->|]. Qed.

(** ** [split] *)

Section split.
Context (c : ascii) (sep' : string).
Local Abbreviation sep := (String c sep').

Lemma split_go_skip (t cur rest : string) :
  split_go sep (String.length t) cur (t +:+ rest) = split_go sep 0 cur rest.
Proof. induction t as [|a t IH]; [done|]. rewrite str_app_cons. simpl. exact IH. Qed.

Lemma split_go_piece (a cur rest : string) :
  has_char c a = false →
  split_go sep 0 cur (a +:+ sep +:+ rest) = (cur +:+ a) :: split_go sep 0 "" rest.
Proof.
  revert cur. induction a as [|b a IH]; intros cur Ha.
  - change ("" +:+ sep +:+ rest) with (String c (sep' +:+ rest)).
    cbn [split_go]. change (String c (sep' +:+ rest)) with (sep +:+ rest).
    rewrite prefix_app.
    replace (String.length (String c sep') - 1)%nat with (String.length sep')
      by (simpl; lia).
    by rewrite split_go_skip, str_app_nil_r.
  - simpl in Ha. destruct (decide (b = c)) as [|Hne]; [done|].
    rewrite str_app_cons. cbn [split_go].
    rewrite prefix_head_ne by done.
    rewrite IH by done. by rewrite str_app_assoc.
Qed.

Lemma split_go_last (a cur : string) :
  has_char c a = false → split_go sep 0 cur a = [cur +:+ a].
Proof.
  revert cur. induction a as [|b a IH]; intros cur Ha.
  - by rewrite str_app_nil_r.
  - simpl in Ha. destruct (decide (b = c)) as [|Hne]; [done|].
    cbn [split_go]. rewrite prefix_head_ne by done.
    rewrite IH by done. by rewrite str_app_assoc.
Qed.
End split.

(** Pieces that are free of the first character of the separator come back
    from the joined string. *)
Lemma split_join (c : ascii) (sep' : string) (pieces : list string) :
  pieces ≠ [] →
  Forall (λ p, has_char c p = false) pieces →
  split (join (String c sep') pieces) (String c sep') = pieces.
Proof.
  intros Hne Hfree. unfold split.
  assert (∀ cur, split_go (String c sep') 0 cur (join (String c sep') pieces) =
                 match pieces with [] => [cur] | p :: ps => (cur +:+ p) :: ps end)
    as Hgo; [|by rewrite Hgo; destruct pieces].
  clear Hne. induction Hfree as [|p ps Hp Hps IH]; intros cur; [done|].
  destruct ps as [|q ps].
  - by apply split_go_last.
  - change (join (String c sep') (p :: q :: ps))
      with (p +:+ String c sep' +:+ join (String c sep') (q :: ps)).
    rewrite split_go_piece by done. by rewrite IH.
Qed.


(** ** [format_git_log] and [format_log] *)

Lemma git_log_entry_cases (t : list string) :
  ((4 ≤ length t)%nat → ∃ e, git_log_entry t = Returns e ∧ has_log_keys e) ∧
  ((length t < 4)%nat → git_log_entry t = Raises IndexError).
Proof.
  destruct t as [|a [|b [|c [|d t]]]]; simpl; (split; [intros; try lia|intros; try lia]);
    try done.
  eexists. split; [reflexivity|].
  intros k Hk. repeat (apply elem_of_cons in Hk as [->|Hk]; [by eexists|]).
  by apply elem_of_nil in Hk.
Qed.

Lemma format_git_log_loop_ok (data_list : list string) (acc : list (gmap string string)) :
  Forall well_split data_list →
  Forall has_log_keys acc →
  ∃ data, format_git_log_loop data_list acc = Returns data ∧
          Forall has_log_keys data ∧
          length data = (length acc + length (filter (λ d, d ≠ "") data_list))%nat.
Proof.
  intros Hall. revert acc. induction Hall as [|d rest Hd _ IH]; intros acc Hacc.
  - exists acc. simpl. split_and!; [done..|lia].
  - cbn [format_git_log_loop]. rewrite filter_cons.
    destruct (decide (d = "")) as [->|Hne].
    + rewrite decide_False by (by intros Hf).
      destruct (IH acc Hacc) as (data & Hdata & ? & Hlen). eauto.
    + rewrite decide_True by done.
      destruct Hd as [|Hd]; [done|].
      destruct (proj1 (git_log_entry_cases _) Hd) as (e & -> & He).
      destruct (IH (acc ++ [e])) as (data & Hdata & ? & Hlen).
      { apply Forall_app. split; [done|]. by constructor. }
      exists data. split_and!; [done..|].
      rewrite Hlen, length_app. simpl. lia.
Qed.

Lemma format_git_log_loop_fails (data_list : list string) (acc : list (gmap string string)) :
  ¬ Forall well_split data_list →
  format_git_log_loop data_list acc = Raises IndexError.
Proof.
  revert acc. induction data_list as [|d rest IH]; intros acc Hbad.
  - destruct Hbad. constructor.
  - cbn [format_git_log_loop]. destruct (decide (d = "")) as [->|Hne].
    + apply IH. intros Hrest. apply Hbad. constructor; [by left|done].
    + destruct (decide (4 ≤ length (split d git_separator))%nat) as [Hd|Hd].
      * destruct (proj1 (git_log_entry_cases _) Hd) as (e & -> & _).
        apply IH. intros Hrest. apply Hbad. constructor; [by right|done].
      * rewrite (proj2 (git_log_entry_cases _)) by lia. done.
Qed.

(** X1. [format_git_log] skips the empty entries and needs at least four
    pieces in every other one: then it returns one dict per non-empty
    entry; otherwise [t[1]], [t[2]] or [t[3]] raises [IndexError]. *)
Theorem format_git_log_outcome (data_list : list string) :
  (Forall well_split data_list →
   ∃ data, format_git_log data_list = Returns data ∧
           Forall has_log_keys data ∧
           length data = length (filter (λ d, d ≠ "") data_list)) ∧
  (¬ Forall well_split data_list → format_git_log data_list = Raises IndexError).
Proof.
  split.
  - intros Hall.
    destruct (format_git_log_loop_ok data_list [] Hall) as (data & Hd & Hk & Hlen);
      [constructor|].
    exists data. by split_and!.
  - apply format_git_log_loop_fails.
Qed.

Lemma git_log_line_split (c : GitCommit) :
  star_free c →
  git_log_line c ≠ "" ∧
  split (git_log_line c) git_separator =
    [commit_hash c; commit_abbrev c; commit_subject c; commit_time c].
Proof.
  intros (Hh & Ha & Hs & Ht). split.
  - unfold git_log_line. intros Hempty.
    apply (f_equal String.length) in Hempty.
    rewrite !str_length_app in Hempty. simpl in Hempty. lia.
  - apply (split_join "*" "****"
             [commit_hash c; commit_abbrev c; commit_subject c; commit_time c]);
      [done|]. by repeat constructor.
Qed.

Lemma format_git_log_loop_lines (commits : list GitCommit) (acc : list (gmap string string)) :
  Forall star_free commits →
  format_git_log_loop (git_log_line <$> commits) acc =
  Returns (acc ++ (git_log_dict <$> commits)).
Proof.
  intros Hall. revert acc. induction Hall as [|c rest Hc _ IH]; intros acc.
  - simpl. by rewrite app_nil_r.
  - destruct (git_log_line_split c Hc) as [Hne Hsplit].
    rewrite !fmap_cons. cbn [format_git_log_loop].
    rewrite decide_False by done. rewrite Hsplit.
    change (git_log_entry _) with (Returns (git_log_dict c)).
    cbn [mbind try_bind]. rewrite IH. by rewrite <- app_assoc.
Qed.

(** X2. What [git log] prints with the format of line 72 is read back field
    by field, as long as no field holds a [*]: every commit gives the dict
    of its hash, abbreviated hash, subject and time, in order. *)
Theorem format_git_log_reads_git_output (commits : list GitCommit) :
  Forall star_free commits →
  format_git_log (git_log_line <$> commits) = Returns (git_log_dict <$> commits).
Proof. intros Hall. unfold format_git_log. by rewrite format_git_log_loop_lines. Qed.

Lemma format_git_log_reads_git_output_witness :
  let commits :=
    [ {| commit_hash := "9fceb02d0ae598e95dc970b74767f19372d61af8";
         commit_abbrev := "9fceb02"; commit_subject := "Fix `summon` for stage channels";
         commit_time := "1700000000" |};
      {| commit_hash := "a11bef06a3f659402fe7563abf99ad00de2209e6";
         commit_abbrev := "a11bef0"; commit_subject := "";
         commit_time := "1699990000" |} ] in
  format_git_log (git_log_line <$> commits) = Returns (git_log_dict <$> commits).
Proof.
  intros commits. apply format_git_log_reads_git_output.
  repeat constructor.
Defined.

(** X3. The subject that [format_log] shows is the subject itself when it
    has at most 39 characters; a longer one is cut to its first 40
    characters, loses its backticks and gets [...] appended.  The shown
    subject never exceeds 43 characters. *)
Theorem shown_subject_bounds (subject : string) :
  ((String.length subject ≤ 39)%nat → shown_subject subject = subject) ∧
  ((39 < String.length subject)%nat →
   ∃ kept, shown_subject subject = kept +:+ "..." ∧
           kept = remove_char "`" (str_take 40 subject) ∧
           has_char "`" kept = false ∧
           (String.length kept ≤ 40)%nat) ∧
  (String.length (shown_subject subject) ≤ 43)%nat.
Proof.
  assert (Hrm_len : ∀ s, (String.length (remove_char "`" s) ≤ String.length s)%nat).
  { induction s as [|a s IH]; simpl; [lia|]. destruct (decide (a = "`"%char)); simpl; lia. }
  assert (Hrm : ∀ s, has_char "`" (remove_char "`" s) = false).
  { induction s as [|a s IH]; simpl; [done|].
    destruct (decide (a = "`"%char)) as [|Hne]; [done|]. simpl.
    by rewrite decide_False. }
  assert (Htake : ∀ n s, (String.length (str_take n s) ≤ n)%nat).
  { induction n as [|n IH]; intros [|a s]; simpl; try lia. specialize (IH s). lia. }
  unfold shown_subject. case_bool_decide as Hlen.
  - split_and!.
    + lia.
    + intros _. eexists. split_and!; [reflexivity..|apply Hrm|].
      etrans; [apply Hrm_len|apply Htake].
    + rewrite str_length_app. change (String.length "...") with 3%nat.
      pose proof (Hrm_len (str_take 40 subject)). pose proof (Htake 40%nat subject). lia.
  - split_and!; [done|lia|lia].
Qed.

Lemma format_log_line_ok (remote_git_url : string) (e : gmap string string) :
  has_log_keys e → ∃ line, format_log_line remote_git_url e = Returns line.
Proof.
  intros He. unfold format_log_line, getitem.
  destruct (He "abbreviated_commit") as [a ->]; [set_solver|].
  destruct (He "commit") as [c ->]; [set_solver|].
  destruct (He "subject") as [s ->]; [set_solver|].
  destruct (He "timestamp") as [t ->]; [set_solver|].
  by eexists.
Qed.

Lemma format_log_lines_ok (remote_git_url : string) (data : list (gmap string string)) :
  Forall has_log_keys data →
  ∃ lines, format_log_lines remote_git_url data = Returns lines ∧
           length lines = length data.
Proof.
  induction 1 as [|e rest He _ (lines & IH & Hlen)]; [by exists []|].
  destruct (format_log_line_ok remote_git_url e He) as [line Hline].
  exists (line :: lines). cbn [format_log_lines]. rewrite Hline, IH. simpl.
  by rewrite Hlen.
Qed.

(** X4. [format_log] never fails on what [format_git_log] returns: every
    dict it is given has the four keys it reads, so no [KeyError] arises. *)
Theorem format_log_accepts_format_git_log
    (remote_git_url : string) (data_list : list string) (data : list (gmap string string)) :
  format_git_log data_list = Returns data →
  ∃ text, format_log remote_git_url data = Returns text.
Proof.
  intros Hdata.
  destruct (decide (Forall well_split data_list)) as [Hall|Hbad].
  - destruct (format_git_log_loop_ok data_list [] Hall) as (data' & Hd & Hk & _);
      [constructor|].
    unfold format_git_log in Hdata. rewrite Hdata in Hd. injection Hd as <-.
    destruct (format_log_lines_ok remote_git_url data Hk) as (lines & Hl & _).
    unfold format_log. rewrite Hl. by eexists.
  - unfold format_git_log in Hdata.
    rewrite (format_git_log_loop_fails data_list [] Hbad) in Hdata. discriminate.
Qed.

Lemma format_log_accepts_format_git_log_witness :
  let data_list := ["9fceb02d*****9fceb02*****Fix summon*****1700000000"; ""] in
  ∃ data, format_git_log data_list = Returns data ∧
  ∃ text, format_log "https://github.com/owner/repo" data = Returns text.
Proof.
  intros data_list.
  assert (∃ data, format_git_log data_list = Returns data) as [data Hdata].
  { vm_compute. by eexists. }
  exists data. split; [exact Hdata|].
  exact (format_log_accepts_format_git_log "https://github.com/owner/repo"
           data_list data Hdata).
Defined.

(** ** [strip] *)

Lemma rev_app_spec (s t : string) : String.rev_app s t = String.rev s +:+ t.
Proof.
  unfold String.rev. revert t. induction s as [|c s IH]; intros t; [done|].
  simpl. rewrite IH, (IH (String c "")). by rewrite str_app_assoc.
Qed.

Lemma rev_cons (c : ascii) (s : string) : String.rev (String c s) = String.rev s +:+ String c "".
Proof. unfold String.rev at 1. simpl. by rewrite rev_app_spec. Qed.

Lemma rev_app_distr (a b : string) : String.rev (a +:+ b) = String.rev b +:+ String.rev a.
Proof.
  induction a as [|c a IH]; [by rewrite str_app_nil_r|].
  by rewrite str_app_cons, !rev_cons, IH, str_app_assoc.
Qed.

Lemma rev_involutive (s : string) : String.rev (String.rev s) = s.
Proof.
  induction s as [|c s IH]; [done|]. by rewrite rev_cons, rev_app_distr, IH.
Qed.

Lemma rev_length (s : string) : String.length (String.rev s) = String.length s.
Proof.
  induction s as [|c s IH]; [done|]. rewrite rev_cons, str_length_app, IH. simpl. lia.
Qed.

(** [lstrip] cuts a run of dropped characters off the front and stops at a
    character that is kept. *)
Lemma lstrip_spec (drop : ascii → bool) (s : string) :
  ∃ w, s = w +:+ lstrip drop s ∧
       (∀ c, has_char c w = true → drop c = true) ∧
       (∀ c rest, lstrip drop s = String c rest → drop c = false).
Proof.
  induction s as [|a s (w & Hs & Hw & Hfirst)].
  - exists "". by split_and!.
  - simpl. destruct (drop a) eqn:Ha.
    + exists (String a w). split_and!.
      * by rewrite str_app_cons, <- Hs.
      * intros c. simpl. destruct (decide (a = c)) as [<-|]; [done|]. apply Hw.
      * done.
    + exists "". split_and!; [done..|]. by intros c rest [= <- _].
Qed.

Lemma has_char_app (c : ascii) (a b : string) :
  has_char c (a +:+ b) = has_char c a || has_char c b.
Proof.
  induction a as [|x a IH]; [done|]. rewrite str_app_cons. simpl.
  by destruct (decide (x = c)).
Qed.

Lemma has_char_rev (c : ascii) (s : string) : has_char c (String.rev s) = has_char c s.
Proof.
  induction s as [|x s IH]; [done|]. rewrite rev_cons, has_char_app, IH. simpl.
  destruct (decide (x = c)), (has_char c s); done.
Qed.

Lemma lstrip_kept (drop : ascii → bool) (s : string) :
  (∀ c rest, s = String c rest → drop c = false) → lstrip drop s = s.
Proof. destruct s as [|a s]; [done|]. intros Hs. simpl. by rewrite (Hs a s). Qed.

(** [strip] cuts dropped characters, and nothing else, off both ends, and
    what it returns neither starts nor ends with a dropped character. *)
Lemma strip_spec (drop : ascii → bool) (s : string) :
  (∃ w1 w2, s = w1 +:+ strip drop s +:+ w2 ∧
            (∀ c, has_char c w1 = true → drop c = true) ∧
            (∀ c, has_char c w2 = true → drop c = true)) ∧
  (∀ c rest, strip drop s = String c rest → drop c = false) ∧
  (∀ init c, strip drop s = init +:+ String c "" → drop c = false) ∧
  strip drop (strip drop s) = strip drop s.
Proof.
  unfold strip at 1 2 3, rstrip.
  destruct (lstrip_spec drop s) as (w1 & Hs & Hw1 & Hfirst).
  set (l := lstrip drop s) in *.
  destruct (lstrip_spec drop (String.rev l)) as (w & Hl & Hw & Hlast).
  set (r := String.rev (lstrip drop (String.rev l))) in *.
  assert (Hrev : String.rev r = lstrip drop (String.rev l)) by apply rev_involutive.
  assert (Hlr : l = r +:+ String.rev w).
  { rewrite <- (rev_involutive l), Hl, rev_app_distr. done. }
  assert (Hstart : ∀ c rest, r = String c rest → drop c = false).
  { intros c rest Hr. apply (Hfirst c (rest +:+ String.rev w)).
    by rewrite Hlr, Hr. }
  split_and!.
  - exists w1, (String.rev w). split_and!.
    + by rewrite <- Hlr.
    + done.
    + intros c. rewrite has_char_rev. apply Hw.
  - done.
  - intros init c Hr. apply (Hlast c (String.rev init)).
    by rewrite <- Hrev, Hr, rev_app_distr.
  - unfold strip, rstrip. fold l. fold r.
    rewrite (lstrip_kept drop r Hstart).
    rewrite (lstrip_kept drop (String.rev r)); [apply rev_involutive|].
    intros c rest Hr. apply (Hlast c rest). by rewrite <- Hrev.
Qed.

Lemma strip_length (drop : ascii → bool) (s : string) :
  (String.length (strip drop s) ≤ String.length s)%nat.
Proof.
  destruct (strip_spec drop s) as ((w1 & w2 & Hs & _) & _).
  rewrite Hs at 2. rewrite !str_length_app. lia.
Qed.


(** ** The prefix commands *)

(** Unfolds the monad of the stateful commands. *)
Ltac run_act :=
  unfold mbind, act_bind, mret, act_ret, call, throw, read, write, lift; simpl.

Section setprefix.
Context (srv : Services) (ctx : CustomContext) (prefix : string) (m : Machine).
Local Abbreviation p := (strip isspace prefix).
Local Abbreviation gid := (g_id (ctx_guild ctx)).
(** The dict the command works on: the one the context carries, or else the
    one read from the database. *)
Local Abbreviation d := (default (get_global_data srv gid db_guilds) (global_guild_data m)).

Lemma setprefix_refused :
  p = "" ∨ (5 < String.length p)%nat →
  setprefix srv ctx prefix m = mkRan m [] (Raises (Known (GenericError prefix_refused))).
Proof.
  intros Hbad. unfold setprefix.
  destruct (bool_decide (p = "")) eqn:H1; [done|].
  destruct (bool_decide (5 < String.length p)%nat) eqn:H2; [done|].
  apply bool_decide_eq_false in H1, H2. by destruct Hbad.
Qed.

Lemma setprefix_accepted :
  p ≠ "" → (String.length p ≤ 5)%nat →
  let r := setprefix srv ctx prefix m in
  result r = Returns tt ∧
  after r = {| guild_prefix_cache := <[gid := p]> (guild_prefix_cache m);
               user_prefix_cache := user_prefix_cache m;
               global_guild_data := Some (<["prefix" := PyStr p]> d);
               global_user_data := global_user_data m |} ∧
  updates (calls r) = [(gid, <["prefix" := PyStr p]> d, db_guilds)] ∧
  fetches (calls r) = match global_guild_data m with
                      | Some _ => []
                      | None => [(gid, db_guilds)]
                      end.
Proof.
  intros Hne Hlen r. subst r. unfold setprefix.
  rewrite bool_decide_eq_false_2 by done.
  rewrite bool_decide_eq_false_2 by lia.
  unfold guild_data_of. run_act.
  destruct (global_guild_data m) as [cached|]; simpl; done.
Qed.
End setprefix.

Lemma strip_trimmed (s : string) : trimmed (strip isspace s).
Proof. destruct (strip_spec isspace s) as (_ & Hstart & Hend & _). by split. Qed.

(** X5. [setprefix] refuses a prefix exactly when, once stripped, it is
    empty or longer than 5 characters; it then raises [GenericError] with
    no call made and nothing changed.  Every other prefix is accepted,
    whitespace inside it included. *)
Theorem setprefix_refuses_iff
    (srv : Services) (ctx : CustomContext) (prefix : string) (m : Machine) :
  let p := strip isspace prefix in
  let r := setprefix srv ctx prefix m in
  (result r = Raises (Known (GenericError prefix_refused)) ↔
   p = "" ∨ (5 < String.length p)%nat) ∧
  (result r = Returns tt ↔ p ≠ "" ∧ (String.length p ≤ 5)%nat) ∧
  (result r ≠ Returns tt → after r = m ∧ calls r = []).
Proof.
  intros p r. subst p r.
  destruct (decide (strip isspace prefix = "" ∨
                    (5 < String.length (strip isspace prefix))%nat)) as [Hbad|Hok].
  - rewrite (setprefix_refused srv ctx prefix m Hbad). simpl. split_and!.
    + done.
    + split; [discriminate|]. intros [? ?]. destruct Hbad; [done|lia].
    + done.
  - assert (strip isspace prefix ≠ "" ∧ (String.length (strip isspace prefix) ≤ 5)%nat)
      as [Hne Hlen].
    { split; [tauto|]. destruct (decide (String.length (strip isspace prefix) ≤ 5)%nat);
        [done|]. destruct Hok. right. lia. }
    destruct (setprefix_accepted srv ctx prefix m Hne Hlen) as (Hres & _).
    rewrite Hres. split_and!.
    + split; [discriminate|tauto].
    + done.
    + done.
Qed.

(** X6. After [setprefix] has returned, the prefix cache of the guild, the
    data dict of the context and the data written to the database all hold
    the same prefix: the argument stripped, which has 1 to 5 characters and
    neither starts nor ends with whitespace.  The database is written once,
    under the id of the guild, and read only if the context had no data. *)
Theorem setprefix_stores_stripped_prefix
    (srv : Services) (ctx : CustomContext) (prefix : string) (m : Machine) :
  let r := setprefix srv ctx prefix m in
  let gid := g_id (ctx_guild ctx) in
  result r = Returns tt →
  ∃ p data,
    p = strip isspace prefix ∧
    (1 ≤ String.length p ≤ 5)%nat ∧ trimmed p ∧
    guild_prefix_cache (after r) !! gid = Some p ∧
    global_guild_data (after r) = Some data ∧
    data !! "prefix" = Some (PyStr p) ∧
    updates (calls r) = [(gid, data, db_guilds)] ∧
    (is_Some (global_guild_data m) → fetches (calls r) = []).
Proof.
  intros r gid Hres. subst r gid.
  assert (strip isspace prefix ≠ "" ∧ (String.length (strip isspace prefix) ≤ 5)%nat)
    as [Hne Hlen].
  { destruct (decide (strip isspace prefix = "" ∨
                      (5 < String.length (strip isspace prefix))%nat)) as [Hbad|Hok].
    - by rewrite (setprefix_refused srv ctx prefix m Hbad) in Hres.
    - split; [tauto|]. lia. }
  destruct (setprefix_accepted srv ctx prefix m Hne Hlen) as (_ & Hafter & Hup & Hget).
  eexists _, _. split_and!; [reflexivity| | |apply strip_trimmed| | | |exact Hup|].
  - destruct (strip isspace prefix); [done|simpl; lia].
  - done.
  - rewrite Hafter. simpl. apply lookup_insert_eq.
  - by rewrite Hafter.
  - apply lookup_insert_eq.
  - intros [cached Hc]. by rewrite Hget, Hc.
Qed.


Lemma setprefix_stores_stripped_prefix_witness :
  let r := setprefix Desk.services Desk.ctx " >> " Desk.machine in
  ∃ p data,
    p = strip isspace " >> " ∧
    (1 ≤ String.length p ≤ 5)%nat ∧ trimmed p ∧
    guild_prefix_cache (after r) !! 50%Z = Some p ∧
    global_guild_data (after r) = Some data ∧
    data !! "prefix" = Some (PyStr p) ∧
    updates (calls r) = [(50%Z, data, db_guilds)] ∧
    (is_Some (global_guild_data Desk.machine) → fetches (calls r) = []).
Proof.
  intros r.
  apply (setprefix_stores_stripped_prefix Desk.services Desk.ctx " >> " Desk.machine).
  vm_compute. reflexivity.
Defined.

Section resetprefix.
Context (srv : Services) (ctx : CustomContext) (m : Machine).
Local Abbreviation gid := (g_id (ctx_guild ctx)).
Local Abbreviation d := (default (get_global_data srv gid db_guilds) (global_guild_data m)).

(** The machine once the data dict has been attached to the context. *)
Local Abbreviation attached := (set_global_guild_data d m).

Lemma resetprefix_fetches :
  fetches (calls (resetprefix srv ctx m)) =
  match global_guild_data m with Some _ => [] | None => [(gid, db_guilds)] end.
Proof.
  unfold resetprefix, guild_data_of, getitem. run_act.
  destruct (global_guild_data m) as [cached|]; simpl.
  - destruct (cached !! "prefix") as [v|]; simpl; [|done].
    by destruct (truthy v).
  - destruct (get_global_data srv gid db_guilds !! "prefix") as [v|]; simpl; [|done].
    by destruct (truthy v).
Qed.

Lemma resetprefix_no_key :
  d !! "prefix" = None →
  let r := resetprefix srv ctx m in
  result r = Raises (KeyError "prefix") ∧ after r = attached ∧ updates (calls r) = [].
Proof.
  intros Hd r. subst r. unfold resetprefix, guild_data_of, getitem. run_act.
  destruct (global_guild_data m) as [cached|] eqn:Hm; simpl in *; rewrite Hd; simpl.
  - split_and!; [done| |done]. unfold set_global_guild_data. destruct m. simpl in *.
    by rewrite Hm.
  - done.
Qed.

Lemma resetprefix_not_configured (v : PyValue) :
  d !! "prefix" = Some v → truthy v = false →
  let r := resetprefix srv ctx m in
  result r = Raises (Known (GenericError no_prefix_configured)) ∧
  after r = attached ∧ updates (calls r) = [].
Proof.
  intros Hd Hv r. subst r. unfold resetprefix, guild_data_of, getitem. run_act.
  destruct (global_guild_data m) as [cached|] eqn:Hm; simpl in *; rewrite Hd; simpl;
    rewrite Hv; simpl.
  - split_and!; [done| |done]. unfold set_global_guild_data. destruct m. simpl in *.
    by rewrite Hm.
  - done.
Qed.

Lemma resetprefix_done (v : PyValue) :
  d !! "prefix" = Some v → truthy v = true →
  let r := resetprefix srv ctx m in
  result r = Returns tt ∧
  after r = {| guild_prefix_cache := <[gid := ""]> (guild_prefix_cache m);
               user_prefix_cache := user_prefix_cache m;
               global_guild_data := Some (<["prefix" := PyStr ""]> d);
               global_user_data := global_user_data m |} ∧
  updates (calls r) = [(gid, <["prefix" := PyStr ""]> d, db_guilds)].
Proof.
  intros Hd Hv r. subst r. unfold resetprefix, guild_data_of, getitem. run_act.
  destruct (global_guild_data m) as [cached|] eqn:Hm; simpl in *; rewrite Hd; simpl;
    rewrite Hv; simpl; done.
Qed.
End resetprefix.

(** X7. [resetprefix] by cases on the ["prefix"] item of the data dict (the
    one of the context, or else the one read from the database): a missing
    key raises [KeyError]; an empty prefix raises [GenericError]; in both
    cases the prefix caches stay as they are and nothing is written.
    Otherwise the item and the cache entry of the guild become the empty
    string and the dict is written once under the id of the guild. *)
Theorem resetprefix_outcome (srv : Services) (ctx : CustomContext) (m : Machine) :
  let gid := g_id (ctx_guild ctx) in
  let d := default (get_global_data srv gid db_guilds) (global_guild_data m) in
  let r := resetprefix srv ctx m in
  match d !! "prefix" with
  | None =>
      result r = Raises (KeyError "prefix") ∧
      guild_prefix_cache (after r) = guild_prefix_cache m ∧ updates (calls r) = []
  | Some v =>
      if truthy v then
        result r = Returns tt ∧
        guild_prefix_cache (after r) = <[gid := ""]> (guild_prefix_cache m) ∧
        global_guild_data (after r) = Some (<["prefix" := PyStr ""]> d) ∧
        updates (calls r) = [(gid, <["prefix" := PyStr ""]> d, db_guilds)]
      else
        result r = Raises (Known (GenericError no_prefix_configured)) ∧
        guild_prefix_cache (after r) = guild_prefix_cache m ∧ updates (calls r) = []
  end.
Proof.
  intros gid d r. subst gid d r.
  destruct (default _ (global_guild_data m) !! "prefix") as [v|] eqn:Hd.
  - destruct (truthy v) eqn:Hv.
    + destruct (resetprefix_done srv ctx m v Hd Hv) as (-> & -> & ->). done.
    + destruct (resetprefix_not_configured srv ctx m v Hd Hv) as (-> & -> & ->). done.
  - destruct (resetprefix_no_key srv ctx m Hd) as (-> & -> & ->). done.
Qed.

Lemma last_written_single (id : Snowflake) (data : gmap string PyValue) (db_name : DBModel)
    (cs : list Call) :
  updates cs = [(id, data, db_name)] → last_written cs id db_name = Some data.
Proof.
  intros Hcs. unfold last_written. rewrite Hcs. simpl.
  by rewrite bool_decide_eq_true_2.
Qed.

(** X8. A reset that follows a successful [setprefix] in the same guild,
    on a database that gives back what was written, succeeds and leaves the
    empty string in the cache; a second reset after it is refused with
    [GenericError]: there is no prefix left to reset. *)
Theorem resetprefix_after_setprefix
    (srv srv' srv'' : Services) (ctx ctx' ctx'' : CustomContext) (prefix : string)
    (m : Machine) :
  let gid := g_id (ctx_guild ctx) in
  let r1 := setprefix srv ctx prefix m in
  let r2 := resetprefix srv' ctx' (next_invocation (after r1)) in
  let r3 := resetprefix srv'' ctx'' (next_invocation (after r2)) in
  result r1 = Returns tt →
  g_id (ctx_guild ctx') = gid → g_id (ctx_guild ctx'') = gid →
  serves srv' (calls r1) → serves srv'' (calls r2) →
  result r2 = Returns tt ∧
  guild_prefix_cache (after r2) !! gid = Some "" ∧
  result r3 = Raises (Known (GenericError no_prefix_configured)) ∧
  guild_prefix_cache (after r3) !! gid = Some "" ∧
  updates (calls r3) = [].
Proof.
  intros gid r1 r2 r3 Hres Hg' Hg'' Hsrv' Hsrv''. subst gid r1 r2 r3.
  assert (strip isspace prefix ≠ "" ∧ (String.length (strip isspace prefix) ≤ 5)%nat)
    as [Hne Hlen].
  { destruct (decide (strip isspace prefix = "" ∨
                      (5 < String.length (strip isspace prefix))%nat)) as [Hbad|Hok].
    - by rewrite (setprefix_refused srv ctx prefix m Hbad) in Hres.
    - split; [tauto|]. lia. }
  destruct (setprefix_accepted srv ctx prefix m Hne Hlen) as (_ & Hafter1 & Hup1 & _).
  pose proof (Hsrv' _ _ _ (last_written_single _ _ _ _ Hup1)) as Hget'.
  set (m1 := next_invocation (after (setprefix srv ctx prefix m))) in *.
  assert (Hd1 : default (get_global_data srv' (g_id (ctx_guild ctx')) db_guilds)
                  (global_guild_data m1) !! "prefix"
                = Some (PyStr (strip isspace prefix))).
  { subst m1. simpl. rewrite Hg', Hget'. apply lookup_insert_eq. }
  destruct (resetprefix_done srv' ctx' m1 _ Hd1) as (Hres2 & Hafter2 & Hup2).
  { simpl. by rewrite bool_decide_eq_false_2. }
  pose proof (Hsrv'' _ _ _ (last_written_single _ _ _ _ Hup2)) as Hget''.
  set (m2 := next_invocation (after (resetprefix srv' ctx' m1))) in *.
  assert (Hd2 : default (get_global_data srv'' (g_id (ctx_guild ctx'')) db_guilds)
                  (global_guild_data m2) !! "prefix" = Some (PyStr "")).
  { subst m2. simpl. rewrite Hg'', <- Hg', Hget''. apply lookup_insert_eq. }
  destruct (resetprefix_not_configured srv'' ctx'' m2 _ Hd2) as (Hres3 & Hafter3 & Hup3);
    [done|].
  split_and!; [done| |done| |done].
  - rewrite Hafter2. simpl. rewrite Hg'. apply lookup_insert_eq.
  - rewrite Hafter3. unfold set_global_guild_data. cbn [guild_prefix_cache].
    subst m2. unfold next_invocation at 1. cbn [guild_prefix_cache].
    rewrite Hafter2. cbn [guild_prefix_cache]. rewrite Hg'. apply lookup_insert_eq.
Qed.

Lemma resetprefix_after_setprefix_witness :
  let r1 := setprefix Desk.services Desk.ctx ">>" Desk.machine in
  let r2 := resetprefix Desk.services_after_set Desk.ctx (next_invocation (after r1)) in
  let r3 := resetprefix Desk.services Desk.ctx (next_invocation (after r2)) in
  result r2 = Returns tt ∧
  guild_prefix_cache (after r2) !! 50%Z = Some "" ∧
  result r3 = Raises (Known (GenericError no_prefix_configured)) ∧
  guild_prefix_cache (after r3) !! 50%Z = Some "" ∧
  updates (calls r3) = [].
Proof.
  intros r1 r2 r3.
  apply (resetprefix_after_setprefix Desk.services Desk.services_after_set Desk.services
           Desk.ctx Desk.ctx Desk.ctx ">>" Desk.machine).
  - vm_compute. reflexivity.
  - reflexivity.
  - reflexivity.
  - intros id db_name data. unfold last_written. vm_compute updates.
    simpl. case_bool_decide as Hid; [|done]. destruct Hid as [<- <-].
    intros [= <-]. vm_compute. reflexivity.
  - intros id db_name data. unfold last_written. vm_compute updates.
    simpl. case_bool_decide as Hid; [|done]. destruct Hid as [<- <-].
    intros [= <-]. vm_compute. reflexivity.
Defined.

Section setuserprefix.
Context (srv : Services) (ctx : CustomContext) (prefix : string) (m : Machine).
Local Abbreviation p := (strip isspace prefix).
Local Abbreviation uid := (m_id (ctx_author ctx)).
Local Abbreviation d := (default (get_global_data srv uid db_users) (global_user_data m)).

Lemma setuserprefix_refused :
  p = "" ∨ (5 < String.length p)%nat →
  setuserprefix srv ctx prefix m = mkRan m [] (Raises (Known (GenericError prefix_refused))).
Proof.
  intros Hbad. unfold setuserprefix.
  destruct (bool_decide (p = "")) eqn:H1; [done|].
  destruct (bool_decide (5 < String.length p)%nat) eqn:H2; [done|].
  apply bool_decide_eq_false in H1, H2. by destruct Hbad.
Qed.

Lemma setuserprefix_accepted :
  p ≠ "" → (String.length p ≤ 5)%nat →
  let r := setuserprefix srv ctx prefix m in
  result r = Returns tt ∧
  after r = {| guild_prefix_cache := guild_prefix_cache m;
               user_prefix_cache := <[uid := p]> (user_prefix_cache m);
               global_guild_data := global_guild_data m;
               global_user_data := Some (<["custom_prefix" := PyStr p]> d) |} ∧
  updates (calls r) = [(uid, <["custom_prefix" := PyStr p]> d, db_users)].
Proof.
  intros Hne Hlen r. subst r. unfold setuserprefix.
  rewrite bool_decide_eq_false_2 by done.
  rewrite bool_decide_eq_false_2 by lia.
  unfold user_data_of. run_act.
  destruct (global_user_data m) as [cached|]; simpl; done.
Qed.
End setuserprefix.

(** X9. [setuserprefix] refuses a prefix that, once stripped, is empty or
    longer than 5 characters, with nothing changed and no call made.
    Otherwise the user's cache entry, the data dict of the context and the
    data written to the database (once, under the id of the author, in the
    users table) hold the stripped prefix, of 1 to 5 characters. *)
Theorem setuserprefix_outcome
    (srv : Services) (ctx : CustomContext) (prefix : string) (m : Machine) :
  let p := strip isspace prefix in
  let uid := m_id (ctx_author ctx) in
  let r := setuserprefix srv ctx prefix m in
  if bool_decide (p = "" ∨ (5 < String.length p)%nat) then
    r = mkRan m [] (Raises (Known (GenericError prefix_refused)))
  else
    result r = Returns tt ∧
    (1 ≤ String.length p ≤ 5)%nat ∧ trimmed p ∧
    user_prefix_cache (after r) !! uid = Some p ∧
    ∃ data, global_user_data (after r) = Some data ∧
            data !! "custom_prefix" = Some (PyStr p) ∧
            updates (calls r) = [(uid, data, db_users)].
Proof.
  intros p uid r. subst p uid r. case_bool_decide as Hbad.
  - by apply setuserprefix_refused.
  - assert (strip isspace prefix ≠ "" ∧ (String.length (strip isspace prefix) ≤ 5)%nat)
      as [Hne Hlen] by (split; [tauto|lia]).
    destruct (setuserprefix_accepted srv ctx prefix m Hne Hlen) as (Hres & Hafter & Hup).
    split_and!; [done| |done|apply strip_trimmed| |].
    + destruct (strip isspace prefix); [done|simpl; lia].
    + rewrite Hafter. simpl. apply lookup_insert_eq.
    + eexists. split_and!; [by rewrite Hafter| |exact Hup]. apply lookup_insert_eq.
Qed.

(** X10. The guild commands and the user commands keep apart: [setprefix]
    and [resetprefix] never change the user prefix cache or the user data
    of the context and only write to the guilds table; [setuserprefix] and
    [resetuserprefix] never change the guild prefix cache or the guild data
    of the context and only write to the users table. *)
Theorem prefix_commands_keep_apart
    (srv : Services) (ctx : CustomContext) (prefix : string) (m : Machine) :
  (∀ r, r ∈ [setprefix srv ctx prefix m; resetprefix srv ctx m] →
        user_prefix_cache (after r) = user_prefix_cache m ∧
        global_user_data (after r) = global_user_data m ∧
        ∀ u, u ∈ updates (calls r) → u.2 = db_guilds) ∧
  (∀ r, r ∈ [setuserprefix srv ctx prefix m; resetuserprefix srv ctx m] →
        guild_prefix_cache (after r) = guild_prefix_cache m ∧
        global_guild_data (after r) = global_guild_data m ∧
        ∀ u, u ∈ updates (calls r) → u.2 = db_users).
Proof.
  split; intros r Hr.
  - apply elem_of_cons in Hr as [->|Hr]; [|apply list_elem_of_singleton in Hr as ->].
    + unfold setprefix, guild_data_of. run_act.
      destruct (bool_decide _ || bool_decide _); [by split_and!; [..|intros ? ?%elem_of_nil]|].
      destruct (global_guild_data m); simpl;
        (split_and!; [done..|]); intros u ->%list_elem_of_singleton; done.
    + unfold resetprefix, guild_data_of, getitem. run_act.
      destruct (global_guild_data m) as [cached|]; simpl.
      * destruct (cached !! "prefix") as [v|]; simpl;
          [destruct (truthy v); simpl|];
          (split_and!; [done..|]); intros u Hu;
          try (by apply elem_of_nil in Hu); by apply list_elem_of_singleton in Hu as ->.
      * destruct (get_global_data srv _ db_guilds !! "prefix") as [v|]; simpl;
          [destruct (truthy v); simpl|];
          (split_and!; [done..|]); intros u Hu;
          try (by apply elem_of_nil in Hu); by apply list_elem_of_singleton in Hu as ->.
  - apply elem_of_cons in Hr as [->|Hr]; [|apply list_elem_of_singleton in Hr as ->].
    + unfold setuserprefix, user_data_of. run_act.
      destruct (bool_decide _ || bool_decide _); [by split_and!; [..|intros ? ?%elem_of_nil]|].
      destruct (global_user_data m); simpl;
        (split_and!; [done..|]); intros u ->%list_elem_of_singleton; done.
    + unfold resetuserprefix, user_data_of, getitem. run_act.
      destruct (global_user_data m) as [cached|]; simpl.
      * destruct (cached !! "custom_prefix") as [v|]; simpl;
          [destruct (truthy v); simpl|];
          (split_and!; [done..|]); intros u Hu;
          try (by apply elem_of_nil in Hu); by apply list_elem_of_singleton in Hu as ->.
      * destruct (get_global_data srv _ db_users !! "custom_prefix") as [v|]; simpl;
          [destruct (truthy v); simpl|];
          (split_and!; [done..|]); intros u Hu;
          try (by apply elem_of_nil in Hu); by apply list_elem_of_singleton in Hu as ->.
Qed.

(** ** The length of [str(n)] *)

Lemma pretty_N_go_length (k : nat) (x : N) (s : string) :
  (10 ^ N.of_nat k ≤ x < 10 ^ N.of_nat (S k))%N →
  String.length (pretty_N_go x s) = (String.length s + S k)%nat.
Proof.
  revert x s. induction k as [|k IH]; intros x s [Hlo Hhi].
  - change (10 ^ N.of_nat 0)%N with 1%N in Hlo. change (10 ^ N.of_nat 1)%N with 10%N in Hhi.
    rewrite pretty_N_go_step by lia.
    rewrite (N.div_small x 10) by lia. rewrite pretty_N_go_0. simpl. lia.
  - rewrite pretty_N_go_step.
    2: { pose proof (N.pow_nonzero 10 (N.of_nat (S k))). lia. }
    rewrite IH; [simpl; lia|].
    rewrite !Nat2N.inj_succ, !N.pow_succ_r' in *. split.
    + apply N.div_le_lower_bound; lia.
    + apply N.Div0.div_lt_upper_bound; lia.
Qed.

Lemma decimal_magnitude (x : N) :
  (0 < x)%N → ∃ k : nat, (10 ^ N.of_nat k ≤ x < 10 ^ N.of_nat (S k))%N.
Proof.
  induction (N.lt_wf_0 x) as [x _ IH]; intros Hx.
  destruct (decide (x < 10)%N) as [Hsmall|Hbig].
  - exists 0%nat. change (10 ^ N.of_nat 0)%N with 1%N. change (10 ^ N.of_nat 1)%N with 10%N.
    lia.
  - destruct (IH (x / 10)%N) as [k [Hlo Hhi]].
    + apply N.div_lt; lia.
    + apply N.div_str_pos. lia.
    + exists (S k). rewrite !Nat2N.inj_succ, !N.pow_succ_r'.
      rewrite Nat2N.inj_succ, N.pow_succ_r' in Hhi.
      set (t := (10 ^ N.of_nat k)%N) in *. clearbody t. clear IH.
      pose proof (N.div_mod x 10 ltac:(lia)). pose proof (N.mod_lt x 10 ltac:(lia)).
      set (q := (x `div` 10)%N) in *. set (r := (x `mod` 10)%N) in *. clearbody q r.
      split; lia.
Qed.

(** A positive number has at most [n] decimal digits exactly when it is
    below [10 ^ n]. *)
Lemma pretty_N_length_le (x : N) (n : nat) :
  (0 < x)%N → (String.length (pretty x) ≤ n)%nat ↔ (x < 10 ^ N.of_nat n)%N.
Proof.
  intros Hx. destruct (decimal_magnitude x Hx) as [k [Hlo Hhi]].
  unfold pretty, pretty_N. rewrite decide_False by lia.
  rewrite (pretty_N_go_length k x "") by done. simpl. split.
  - intros Hn. eapply N.lt_le_trans; [exact Hhi|].
    apply N.pow_le_mono_r; lia.
  - intros Hn. destruct (decide (S k ≤ n)%nat) as [|Hgt]; [done|].
    assert (10 ^ N.of_nat n ≤ 10 ^ N.of_nat k)%N by (apply N.pow_le_mono_r; lia). lia.
Qed.

(** [17 < len(str(server_id)) < 24] in terms of [server_id]. *)
Lemma server_id_length (server_id : Z) :
  (17 < String.length (pretty server_id) < 24)%nat ↔ id_in_range server_id.
Proof.
  unfold id_in_range. destruct server_id as [|x|x].
  - simpl. split; [lia|]. intros [?|?]; lia.
  - change (pretty (Z.pos x)) with (pretty (N.pos x)).
    pose proof (pretty_N_length_le (N.pos x) 17 eq_refl) as H17.
    pose proof (pretty_N_length_le (N.pos x) 23 eq_refl) as H23.
    change (10 ^ N.of_nat 17)%N with 100000000000000000%N in H17.
    change (10 ^ N.of_nat 23)%N with 100000000000000000000000%N in H23.
    change (10 ^ 17)%Z with 100000000000000000%Z.
    change (10 ^ 23)%Z with 100000000000000000000000%Z.
    change (10 ^ 22)%Z with 10000000000000000000000%Z.
    change (10 ^ 16)%Z with 10000000000000000%Z.
    lia.
  - change (pretty (Z.neg x)) with ("-" +:+ pretty (N.pos x)).
    rewrite str_length_app. change (String.length "-") with 1%nat.
    pose proof (pretty_N_length_le (N.pos x) 16 eq_refl) as H16.
    pose proof (pretty_N_length_le (N.pos x) 22 eq_refl) as H22.
    change (10 ^ N.of_nat 16)%N with 10000000000000000%N in H16.
    change (10 ^ N.of_nat 22)%N with 10000000000000000000000%N in H22.
    change (10 ^ 17)%Z with 100000000000000000%Z.
    change (10 ^ 23)%Z with 100000000000000000000000%Z.
    change (10 ^ 22)%Z with 10000000000000000000000%Z.
    change (10 ^ 16)%Z with 10000000000000000%Z.
    lia.
Qed.


(** ** [setguildprefix] *)

Section setguildprefix.
Context (srv : Services) (ctx : CustomContext) (server_id : Z) (m : Machine).

Lemma setguildprefix_refused (prefix : option string) :
  ¬ id_in_range server_id →
  setguildprefix srv ctx server_id prefix m =
  mkRan m [] (Raises (Known (GenericError server_id_refused))).
Proof.
  intros Hbad. unfold setguildprefix.
  destruct (bool_decide (17 < _)%nat && bool_decide (_ < 24)%nat) eqn:Hlen; [|done].
  apply andb_prop in Hlen as [H1%bool_decide_eq_true H2%bool_decide_eq_true].
  destruct Hbad. by apply server_id_length.
Qed.

Lemma setguildprefix_in_range :
  id_in_range server_id →
  bool_decide (17 < String.length (pretty server_id))%nat &&
  bool_decide (String.length (pretty server_id) < 24)%nat = true.
Proof.
  intros [H1 H2]%server_id_length.
  by rewrite !bool_decide_eq_true_2.
Qed.
End setguildprefix.

(** X11. [setguildprefix] refuses a server id exactly when it lies outside
    [10^17 .. 10^23 - 1] and outside [-(10^22 - 1) .. -10^16] (ids whose
    decimal form, sign included, has 18 to 23 characters); a refused id
    raises [GenericError] before the database is touched. *)
Theorem setguildprefix_refuses_iff
    (srv : Services) (ctx : CustomContext) (server_id : Z) (prefix : option string)
    (m : Machine) :
  let r := setguildprefix srv ctx server_id prefix m in
  (result r = Raises (Known (GenericError server_id_refused)) ↔ ¬ id_in_range server_id) ∧
  (¬ id_in_range server_id → after r = m ∧ calls r = []) ∧
  (id_in_range server_id → fetches (calls r) = [(server_id, db_guilds)]).
Proof.
  intros r. subst r. split_and!.
  - split.
    + intros Hres Hok. unfold setguildprefix in Hres.
      rewrite (setguildprefix_in_range server_id Hok) in Hres. revert Hres. run_act.
      destruct prefix as [prefix|]; [|done].
      by destruct (bool_decide (strip isspace prefix = "")).
    + intros Hbad. by rewrite setguildprefix_refused.
  - intros Hbad. by rewrite setguildprefix_refused.
  - intros Hok. unfold setguildprefix.
    rewrite (setguildprefix_in_range server_id Hok). run_act.
    destruct prefix as [prefix|]; [|done].
    by destruct (bool_decide (strip isspace prefix = "")).
Qed.

(** X12. For an id in range, [setguildprefix] writes the stripped prefix
    (of any length) into the data of [server_id] and stores it in the
    database under [server_id], but the cache entry it sets is the one of
    the guild the command was sent in: the cache entry of [server_id] stays
    as it was unless that is the same guild.  With the prefix left out the
    command raises [AttributeError] after reading the database, and neither
    the database nor the cache is written. *)
Theorem setguildprefix_effect
    (srv : Services) (ctx : CustomContext) (server_id : Z) (prefix : option string)
    (m : Machine) :
  let r := setguildprefix srv ctx server_id prefix m in
  let gid := g_id (ctx_guild ctx) in
  id_in_range server_id →
  match prefix with
  | None =>
      result r = Raises (Known AttributeError) ∧ after r = m ∧ updates (calls r) = []
  | Some prefix =>
      let p := strip isspace prefix in
      result r = Returns tt ∧
      updates (calls r) =
        [(server_id, <["prefix" := PyStr p]> (get_global_data srv server_id db_guilds),
          db_guilds)] ∧
      guild_prefix_cache (after r) = <[gid := p]> (guild_prefix_cache m) ∧
      (server_id ≠ gid →
       guild_prefix_cache (after r) !! server_id = guild_prefix_cache m !! server_id)
  end.
Proof.
  intros r gid Hok. subst r gid. unfold setguildprefix.
  rewrite (setguildprefix_in_range server_id Hok). run_act.
  destruct prefix as [prefix|]; [|done].
  case_bool_decide as Hp; simpl.
  - rewrite Hp. split_and!; [done..|]. intros Hne. by rewrite lookup_insert_ne.
  - split_and!; [done..|]. intros Hne. by rewrite lookup_insert_ne.
Qed.

Lemma setguildprefix_effect_witness :
  let server_id := 1155223334455667788%Z in
  let r := setguildprefix Desk.services Desk.ctx server_id (Some ">>") Desk.machine in
  result r = Returns tt ∧
  updates (calls r) =
    [(server_id, <["prefix" := PyStr ">>"]>
                   (get_global_data Desk.services server_id db_guilds), db_guilds)] ∧
  guild_prefix_cache (after r) = <[50%Z := ">>"]> (guild_prefix_cache Desk.machine) ∧
  (server_id ≠ 50%Z →
   guild_prefix_cache (after r) !! server_id = guild_prefix_cache Desk.machine !! server_id).
Proof.
  intros server_id r.
  apply (setguildprefix_effect Desk.services Desk.ctx server_id (Some ">>") Desk.machine).
  unfold id_in_range. left. subst server_id. lia.
Defined.


(** ** [cleardm] *)

Lemma cleardm_loop_spec (bot : BotCore) (history : list DirectMessage) (counter : Z)
    (m : Machine) :
  let mine := filter (λ msg, dm_author msg = u_id (user bot)) history in
  let r := cleardm_loop bot history counter m in
  result r = Returns (counter + Z.of_nat (length mine))%Z ∧
  after r = m ∧
  deletions (calls r) = dm_id <$> mine ∧
  embeds_sent (calls r) = [] ∧ updates (calls r) = [].
Proof.
  revert counter. induction history as [|msg rest IH]; intros counter.
  - simpl. split_and!; try done. f_equal. lia.
  - cbn zeta. rewrite filter_cons. cbn [cleardm_loop].
    case_bool_decide as Hmine.
    + rewrite decide_True by done.
      destruct (IH (counter + 1)%Z) as (Hres & Hafter & Hdel & Hsent & Hup).
      run_act. rewrite Hres, Hafter. simpl. split_and!.
      * f_equal. lia.
      * done.
      * unfold deletions in *. simpl. by rewrite Hdel.
      * done.
      * done.
    + rewrite decide_False by done. apply IH.
Qed.

(** X13. [cleardm] deletes exactly the messages of the bot itself among
    those it is given, in order, and no message of anyone else.  With none
    to delete it raises [GenericError] naming the amount asked for;
    otherwise it sends one embed, which says "One message" for a single
    deletion and gives the count for more.  The prefix state is untouched. *)
Theorem cleardm_deletes_own_messages
    (bot : BotCore) (ctx : CustomContext) (amount : Z) (history : list DirectMessage)
    (m : Machine) :
  let mine := filter (λ msg, dm_author msg = u_id (user bot)) history in
  let r := cleardm bot ctx amount history m in
  deletions (calls r) = dm_id <$> mine ∧
  after r = m ∧
  match mine with
  | [] =>
      result r = Raises (Known (GenericError (none_deleted amount))) ∧
      embeds_sent (calls r) = []
  | [_] =>
      result r = Returns tt ∧
      embeds_sent (calls r) =
        [{| description := one_deleted; color := get_color (me (ctx_guild ctx)) |}]
  | _ =>
      result r = Returns tt ∧
      embeds_sent (calls r) =
        [{| description := many_deleted (Z.of_nat (length mine));
            color := get_color (me (ctx_guild ctx)) |}]
  end.
Proof.
  intros mine r. subst r.
  destruct (cleardm_loop_spec bot history 0 m) as (Hres & Hafter & Hdel & Hsent & _).
  fold mine in Hres, Hdel. unfold cleardm. run_act.
  rewrite Hres, Hafter. simpl. unfold deletions, embeds_sent in *.
  destruct mine as [|a [|b mine']]; simpl in *.
  - rewrite !app_nil_r. by rewrite Hdel, Hsent.
  - rewrite !omap_app, Hdel, Hsent. done.
  - rewrite Z.add_0_l, bool_decide_eq_false_2 by lia.
    rewrite !omap_app, Hdel, Hsent. simpl. by rewrite app_nil_r.
Qed.


(** ** Splitting into lines *)

Lemma str_take_app (a b : string) : str_take (String.length a) (a +:+ b) = a.
Proof. induction a as [|c a IH]; [by destruct b|]. rewrite str_app_cons. simpl. by rewrite IH. Qed.

Lemma str_drop_last_app (a b : string) : str_drop_last (String.length b) (a +:+ b) = a.
Proof.
  unfold str_drop_last. rewrite str_length_app.
  replace (String.length a + String.length b - String.length b)%nat
    with (String.length a) by lia.
  apply str_take_app.
Qed.

Lemma startswith_app (a b : string) : startswith (a +:+ b) a = true.
Proof. apply prefix_app. Qed.

Lemma endswith_app (a b : string) : endswith (a +:+ b) b = true.
Proof. unfold endswith. rewrite rev_app_distr. apply prefix_app. Qed.

Section lines.
Context (n : ascii).
Local Abbreviation sep := (String n "").

Lemma split_go_char_cons (cur : string) (c : ascii) (s : string) :
  split_go sep 0 cur (String c s) =
  if decide (c = n) then cur :: split_go sep 0 "" s
  else split_go sep 0 (cur +:+ String c "") s.
Proof.
  cbn [split_go String.prefix String.length].
  destruct (ascii_dec n c) as [<-|Hne].
  - rewrite decide_True by done. by destruct s.
  - by rewrite decide_False by done.
Qed.

Lemma split_go_nonempty (cur s : string) : split_go sep 0 cur s ≠ [].
Proof.
  revert cur. induction s as [|c s IH]; intros cur; [done|].
  rewrite split_go_char_cons. destruct (decide (c = n)); [done|apply IH].
Qed.

(** Joining the pieces gives the string back. *)
Lemma join_split_go (cur s : string) : join sep (split_go sep 0 cur s) = cur +:+ s.
Proof.
  revert cur. induction s as [|c s IH]; intros cur.
  - simpl. by rewrite str_app_nil_r.
  - rewrite split_go_char_cons. destruct (decide (c = n)) as [->|Hne].
    + pose proof (split_go_nonempty "" s) as Hne. specialize (IH "").
      unfold join in *. destruct (split_go sep 0 "" s) as [|x xs]; [done|].
      cbn [String.concat]. cbn [String.concat] in IH. by rewrite IH.
    + rewrite IH. by rewrite str_app_assoc.
Qed.

(** The pieces of [a], then the pieces of [b]. *)
Lemma split_go_app (cur a b : string) :
  split_go sep 0 cur (a +:+ sep +:+ b) = split_go sep 0 cur a ++ split_go sep 0 "" b.
Proof.
  revert cur. induction a as [|c a IH]; intros cur.
  - change ("" +:+ sep +:+ b) with (String n b). rewrite split_go_char_cons.
    by rewrite decide_True.
  - rewrite str_app_cons, !split_go_char_cons.
    destruct (decide (c = n)); [by rewrite IH|apply IH].
Qed.
End lines.

Lemma join_split_line (s : string) : join newline (split s newline) = s.
Proof. apply (join_split_go (ascii_of_nat 10) "" s). Qed.

Lemma after_first_line_split (cur s : string) :
  has_char (ascii_of_nat 10) cur = false →
  join newline (tail (split_go newline 0 cur s)) = after_first_line (cur +:+ s).
Proof.
  assert (Hskip : ∀ cur s, has_char (ascii_of_nat 10) cur = false →
            after_first_line (cur +:+ s) = after_first_line s).
  { clear. induction cur as [|c cur IH]; intros s Hc; [done|].
    rewrite str_app_cons. simpl in *.
    destruct (decide (c = ascii_of_nat 10)) as [|Hne]; [done|].
    rewrite decide_False by (intros [= ?]; done). by apply IH. }
  intros Hcur. rewrite Hskip by done. clear Hskip.
  revert cur Hcur. induction s as [|c s IH]; intros cur Hcur; [done|].
  unfold newline. rewrite (split_go_char_cons (ascii_of_nat 10)).
  cbn [after_first_line]. destruct (decide (c = ascii_of_nat 10)) as [->|Hne].
  - rewrite decide_True by done. cbn [tail].
    apply (join_split_go (ascii_of_nat 10) "" s).
  - rewrite decide_False by (intros [= ?]; done).
    apply IH. rewrite has_char_app, Hcur. simpl. by rewrite decide_False.
Qed.

Lemma inner_snoc {A} (l : list A) (x : A) : inner (l ++ [x]) = tail l.
Proof.
  unfold inner. rewrite length_app. simpl.
  replace (length l + 1 - 1)%nat with (length l) by lia.
  rewrite take_app_length. by destruct l.
Qed.

(** ** [shell_command] *)

Lemma fenced_lines (x : string) :
  join newline (inner (split (x +:+ newline +:+ fence) newline)) =
  after_first_line x.
Proof.
  unfold split, newline. rewrite (split_go_app (ascii_of_nat 10)).
  change (split_go (String (ascii_of_nat 10) "") 0 "" fence) with [fence].
  rewrite inner_snoc.
  exact (after_first_line_split "" x eq_refl).
Qed.

Lemma take_fence_not_newline (k : nat) (s : string) :
  (0 < k)%nat → str_take k (fence +:+ s) ≠ newline.
Proof. destruct k as [|k]; [lia|]. intros _. simpl. discriminate. Qed.

Lemma drop_last_fence (x : string) : str_drop_last 3 (x +:+ fence) = x.
Proof. apply (str_drop_last_app x fence). Qed.

Lemma drop_last_fence2 (a b : string) : str_drop_last 3 (a +:+ b +:+ fence) = a +:+ b.
Proof. rewrite <- str_app_assoc. apply drop_last_fence. Qed.

Lemma drop_last_fence3 (a b c : string) :
  str_drop_last 3 (a +:+ b +:+ c +:+ fence) = a +:+ b +:+ c.
Proof. rewrite <- !str_app_assoc. rewrite drop_last_fence. by rewrite !str_app_assoc. Qed.

(** X14. A command written as a code block, three backticks around
    [inner], is run as [inner] itself; only when the second character of
    [inner] is a newline (a one-letter first line) is that first line
    dropped.  A language tag of two or more letters therefore stays in the
    command that is run. *)
Theorem shell_command_block (inner_text : string) :
  shell_command (fence +:+ inner_text +:+ fence) =
  Returns (if bool_decide (String.get 1 inner_text = Some (ascii_of_nat 10))
           then after_first_line inner_text
           else inner_text).
Proof.
  unfold shell_command.
  rewrite startswith_app.
  rewrite <- str_app_assoc, endswith_app, str_app_assoc. cbn [andb].
  change (String.get 4 (fence +:+ inner_text +:+ fence))
    with (String.get 1 (inner_text +:+ fence)).
  assert (Hget : ∃ c, String.get 1 (inner_text +:+ fence) = Some c ∧
                      (c = ascii_of_nat 10 ↔
                       String.get 1 inner_text = Some (ascii_of_nat 10))).
  { destruct inner_text as [|a [|b rest]].
    - eexists. split; [reflexivity|]. split; discriminate.
    - eexists. split; [reflexivity|]. split; discriminate.
    - exists b. split; [reflexivity|]. simpl. split; [by intros ->|by intros [= ->]]. }
  destruct Hget as (c & -> & Hc). cbn [mbind try_bind].
  change (str_drop 3 (fence +:+ inner_text +:+ fence)) with (inner_text +:+ fence).
  destruct (decide (c = ascii_of_nat 10)) as [->|Hne].
  - rewrite (bool_decide_eq_false_2 (String (ascii_of_nat 10) "" ≠ newline))
      by (intros Hf; apply Hf; reflexivity).
    rewrite bool_decide_eq_true_2.
    2: { unfold str_drop_last. apply take_fence_not_newline.
         rewrite !str_length_app. simpl. lia. }
    rewrite (bool_decide_eq_true_2 _ (proj1 Hc eq_refl)).
    rewrite drop_last_fence2.
    rewrite (fenced_lines (fence +:+ inner_text)). done.
  - rewrite (bool_decide_eq_true_2 (String c "" ≠ newline)) by (intros [= ?]; done).
    rewrite bool_decide_eq_true_2.
    2: { unfold str_drop_last. apply take_fence_not_newline.
         rewrite !str_length_app. simpl. lia. }
    rewrite (bool_decide_eq_false_2 (String.get 1 inner_text = _)).
    2: { intros Hf. by apply Hne, Hc. }
    rewrite drop_last_fence3.
    rewrite (fenced_lines (fence +:+ newline +:+ inner_text)). done.
Qed.

(** X15. A command that starts and ends with three backticks but has fewer
    than five characters (that is, three or four backticks) makes
    [command[4]] raise [IndexError]. *)
Theorem shell_command_short_block (command : string) :
  startswith command fence = true → endswith command fence = true →
  (String.length command < 5)%nat →
  shell_command command = Raises IndexError.
Proof.
  intros Hs He Hlen. unfold shell_command. rewrite Hs, He. cbn [andb].
  destruct command as [|a [|b [|c [|d [|e rest]]]]]; simpl in Hlen; try lia; done.
Qed.

Lemma shell_command_short_block_witness :
  shell_command "````" = Raises IndexError.
Proof. apply shell_command_short_block; [reflexivity|reflexivity|simpl; lia]. Defined.

(** X16. A command that is not a code block is run without the backticks,
    spaces and newlines at its two ends: what is run neither starts nor
    ends with one of these, and only such characters were cut off. *)
Theorem shell_command_plain (command : string) :
  startswith command fence && endswith command fence = false →
  ∃ run w1 w2,
    shell_command command = Returns run ∧
    command = w1 +:+ run +:+ w2 ∧
    (∀ c, has_char c w1 = true ∨ has_char c w2 = true →
          c ∈ ["`"%char; " "%char; ascii_of_nat 10]) ∧
    (∀ c rest, run = String c rest → c ∉ ["`"%char; " "%char; ascii_of_nat 10]) ∧
    (∀ init c, run = init +:+ String c "" → c ∉ ["`"%char; " "%char; ascii_of_nat 10]).
Proof.
  intros Hplain. unfold shell_command. rewrite Hplain.
  set (drop := λ c, has_char c ("` " +:+ newline)).
  assert (Hdrop : ∀ c, drop c = true ↔ c ∈ ["`"%char; " "%char; ascii_of_nat 10]).
  { intros c. unfold drop. simpl. rewrite !elem_of_cons, elem_of_nil.
    destruct (decide ("`"%char = c)) as [<-|H1]; [tauto|].
    destruct (decide (" "%char = c)) as [<-|H2]; [tauto|].
    destruct (decide (ascii_of_nat 10 = c)) as [<-|H3]; [tauto|].
    split; [done|]. intros [->|[->|[->|[]]]]; done. }
  destruct (strip_spec drop command) as ((w1 & w2 & Hcmd & Hw1 & Hw2) & Hstart & Hend & _).
  exists (strip drop command), w1, w2. split_and!; [done|done|..].
  - intros c [Hc|Hc]; apply Hdrop; auto.
  - intros c rest Hrun Hin. apply Hdrop in Hin. by rewrite (Hstart c rest Hrun) in Hin.
  - intros init c Hrun Hin. apply Hdrop in Hin. by rewrite (Hend init c Hrun) in Hin.
Qed.

Lemma shell_command_plain_witness :
  ∃ run w1 w2,
    shell_command " `ls -la` " = Returns run ∧
    " `ls -la` " = w1 +:+ run +:+ w2 ∧
    (∀ c, has_char c w1 = true ∨ has_char c w2 = true →
          c ∈ ["`"%char; " "%char; ascii_of_nat 10]) ∧
    (∀ c rest, run = String c rest → c ∉ ["`"%char; " "%char; ascii_of_nat 10]) ∧
    (∀ init c, run = init +:+ String c "" → c ∉ ["`"%char; " "%char; ascii_of_nat 10]).
Proof. apply shell_command_plain. reflexivity. Defined.

(** ** [run_command] and [shell] *)

Lemma run_command_cases (sh : Shell) (cmd : string) :
  let p := create_subprocess_shell sh cmd in
  let out := decode sh <$> (communicate p).1 in
  let err := decode sh <$> (communicate p).2 in
  run_command sh cmd =
  if bool_decide (returncode p = 0%Z) then Returns (str_of out)
  else Raises (Exception (str_of (or_else err out) +:+ newline +:+ newline +:+
                          "Status Code: " +:+ pretty (returncode p))).
Proof.
  intros p out err. subst p out err. unfold run_command.
  destruct (communicate (create_subprocess_shell sh cmd)) as [out err]. simpl.
  destruct (decide (returncode (create_subprocess_shell sh cmd) = 0%Z)) as [Hz|Hnz].
  - rewrite bool_decide_eq_false_2 by (intros Hf; by apply Hf).
    by rewrite bool_decide_eq_true_2.
  - rewrite bool_decide_eq_true_2 by done. by rewrite bool_decide_eq_false_2.
Qed.

(** X17. [shell] runs exactly one command line, the one [shell_command]
    gives, and nothing at all when that fails.  When the process ends with
    a status other than 0 the [Exception] of [run_command], which carries
    the output and the status, leaves the command: the [except GenericError]
    branch is never taken, so nothing is ever sent to the author's DM and
    no reply is posted. *)
Theorem shell_failure_propagates
    (sh : Shell) (dm_open : bool) (ctx : CustomContext) (command : string) (m : Machine) :
  let r := shell sh dm_open ctx command m in
  after r = m ∧
  Forall (λ c, direct_message c = false) (calls r) ∧
  match shell_command command with
  | Raises e => result r = Raises e ∧ calls r = []
  | Returns run =>
      let p := create_subprocess_shell sh run in
      commands_run (calls r) = [run] ∧
      (returncode p ≠ 0%Z →
       result r = Raises (Exception
          (str_of (or_else (decode sh <$> (communicate p).2) (decode sh <$> (communicate p).1))
           +:+ newline +:+ newline +:+ "Status Code: " +:+ pretty (returncode p))) ∧
       replies (calls r) = [])
  end.
Proof.
  intros r. subst r. unfold shell.
  destruct (shell_command command) as [run|e]; [|by run_act].
  run_act. rewrite run_command_cases.
  case_bool_decide as Hz; simpl.
  - split_and!; [done|by repeat constructor|done|done].
  - split_and!; [done|by repeat constructor|done|done].
Qed.

(** X18. When the process ends with status 0, [shell] posts one reply with
    the close button: an output of at most 2000 characters goes into the
    message text, wrapped in a [py] code block, which makes a text of up to
    2009 characters; a longer output goes into a file named after the id of
    the command message.  Text and file never go together. *)
Theorem shell_reply
    (sh : Shell) (dm_open : bool) (ctx : CustomContext) (command run : string) (m : Machine) :
  let r := shell sh dm_open ctx command m in
  let p := create_subprocess_shell sh run in
  let output := str_of (decode sh <$> (communicate p).1) in
  shell_command command = Returns run →
  returncode p = 0%Z →
  result r = Returns tt ∧
  ∃ content file,
    replies (calls r) = [(content, file, [close_button])] ∧
    if bool_decide (String.length output ≤ 2000)%nat then
      content = Some (fence +:+ "py" +:+ newline +:+ output +:+ fence) ∧ file = None ∧
      (String.length (fence +:+ "py" +:+ newline +:+ output +:+ fence) =
       String.length output + 9)%nat
    else
      content = None ∧
      file = Some ("shell_result_" +:+ pretty (ctx_message ctx) +:+ ".txt", output).
Proof.
  intros r p output Hrun Hz. subst r p output. unfold shell. rewrite Hrun.
  run_act. rewrite run_command_cases. rewrite bool_decide_eq_true_2 by done. simpl.
  split; [done|]. unfold shell_kwargs.
  set (output := str_of _).
  destruct (decide (String.length output ≤ 2000)%nat) as [Hle|Hgt].
  - rewrite bool_decide_eq_false_2 by lia. rewrite bool_decide_eq_true_2 by done.
    eexists _, _. split; [reflexivity|]. split_and!; [done..|].
    rewrite !str_length_app. simpl. lia.
  - rewrite bool_decide_eq_true_2 by lia. rewrite bool_decide_eq_false_2 by done.
    eexists _, _. split; [reflexivity|]. done.
Qed.

Lemma shell_reply_witness :
  let sh := {| create_subprocess_shell := λ _,
                 {| returncode := 0; communicate := (Some [], None) |};
               decode := λ _, "total 0" |} in
  let r := shell sh true Desk.ctx "```ls```" Desk.machine in
  result r = Returns tt ∧
  ∃ content file,
    replies (calls r) = [(content, file, [close_button])] ∧
    content = Some (fence +:+ "py" +:+ newline +:+ "total 0" +:+ fence) ∧ file = None ∧
    (String.length (fence +:+ "py" +:+ newline +:+ "total 0" +:+ fence) = 7 + 9)%nat.
Proof.
  intros sh r.
  apply (shell_reply sh true Desk.ctx "```ls```" "ls" Desk.machine).
  - reflexivity.
  - reflexivity.
Defined.

(** X19. The button that [shell] puts on its reply is the one
    [close_shell_result] answers to: a click by the owner replaces the
    message text by the closed notice, a click by anyone else gets the
    owner-only notice and leaves the message alone, and a click on any
    other button is ignored. *)
Theorem close_button_closes_shell_reply
    (sh : Shell) (dm_open : bool) (ctx : CustomContext) (command : string) (m m' : Machine) :
  (∀ content file components button,
     (content, file, components) ∈ replies (calls (shell sh dm_open ctx command m)) →
     button ∈ components →
     close_shell_result button.1.2 true m' = mkRan m' [EditResponse shell_closed] (Returns tt) ∧
     close_shell_result button.1.2 false m' =
       mkRan m' [InterSend owner_only true] (Returns tt)) ∧
  (∀ custom_id is_owner,
     custom_id ≠ close_shell_id →
     close_shell_result custom_id is_owner m' = mkRan m' [] (Returns tt)).
Proof.
  split.
  - intros content file components button Hreply Hbutton.
    assert (button = close_button) as ->; [|done].
    revert Hreply. unfold shell.
    destruct (shell_command command) as [run|e];
      [|run_act; by intros ?%elem_of_nil].
    run_act. rewrite run_command_cases. case_bool_decide; simpl.
    + intros [= _ _ ->]%list_elem_of_singleton.
      by apply list_elem_of_singleton in Hbutton.
    + by intros ?%elem_of_nil.
  - intros custom_id is_owner Hne. unfold close_shell_result.
    by rewrite bool_decide_eq_true_2.
Qed.

(** ** [cleanup_git] *)

Lemma str_take_drop (n : nat) (s : string) : str_take n s +:+ str_drop n s = s.
Proof.
  revert n. induction s as [|c s IH]; intros [|n]; simpl; try done.
  by rewrite str_app_cons, IH.
Qed.

Lemma str_drop_length (n : nat) (s : string) :
  String.length (str_drop n s) = (String.length s - n)%nat.
Proof. revert n. induction s as [|c s IH]; intros [|n]; simpl; try done. Qed.

(** [s[:-n]] cuts off the last [n] characters, or all of them when [s] has
    fewer. *)
Lemma str_drop_last_spec (n : nat) (s : string) :
  ∃ tail, s = str_drop_last n s +:+ tail ∧
          String.length tail = (n `min` String.length s)%nat.
Proof.
  exists (str_drop (String.length s - n) s). unfold str_drop_last.
  rewrite str_take_drop, str_drop_length. split; [done|lia].
Qed.

(** X20. [cleanup_git] ends before running anything in two cases, both
    under [force]: [GIT_DIR] is not set ([KeyError]), or [shutil.rmtree]
    raises something other than [FileNotFoundError], which is raised on; the
    pool is then unchanged.  In every other case it runs its four init
    commands and then [git rev-parse HEAD], whichever of the init commands
    fail: each of them adds its output, or the text of its error, and a
    newline to the returned log.  A failing [git rev-parse HEAD] makes it
    raise with the pool unchanged.  On success the url stored is
    [SOURCE_REPO] without its last four characters (all of it when it has
    fewer), and the commit stored is the output of [git rev-parse HEAD] with
    the newlines cut off both ends. *)
Theorem cleanup_git_outcome
    (sh : Shell) (rmtree : string → Rmtree) (init_repo source_repo : string)
    (git_dir : option string) (force : bool) (pool : GitPool) :
  let r := cleanup_git sh rmtree init_repo source_repo git_dir force pool in
  let head := create_subprocess_shell sh git_rev_parse in
  let nl := ascii_of_nat 10 in
  (force = true → git_dir = None →
   git_result r = Raises (KeyError "GIT_DIR") ∧ rmtree_called r = None ∧
   git_commands r = [] ∧ pool_after r = pool) ∧
  (∀ dir e, force = true → git_dir = Some dir → rmtree dir = RmtreeRaises e →
   git_result r = Raises e ∧ rmtree_called r = Some dir ∧
   git_commands r = [] ∧ pool_after r = pool) ∧
  (force = false ∨
   (∃ dir, git_dir = Some dir ∧ (rmtree dir = Removed ∨ rmtree dir = FileNotFoundError)) →
   git_commands r =
     [ "git init"; "git remote add origin " +:+ init_repo; "git fetch origin";
       "git --work-tree=. checkout -b main -f --track origin/main"; "git rev-parse HEAD" ] ∧
   rmtree_called r = (if force then git_dir else None) ∧
   if bool_decide (returncode head = 0%Z) then
     git_result r =
       Returns (git_output sh "git init" +:+
                git_output sh ("git remote add origin " +:+ init_repo) +:+
                git_output sh "git fetch origin" +:+
                git_output sh "git --work-tree=. checkout -b main -f --track origin/main") ∧
     (∃ tail, source_repo = remote_git_url (pool_after r) +:+ tail ∧
              String.length tail = (4 `min` String.length source_repo)%nat) ∧
     (∃ w1 w2, str_of (decode sh <$> (communicate head).1) =
                 w1 +:+ pool_commit (pool_after r) +:+ w2 ∧
               (∀ c, has_char c w1 = true → c = nl) ∧
               (∀ c, has_char c w2 = true → c = nl)) ∧
     (∀ c rest, pool_commit (pool_after r) = String c rest → c ≠ nl) ∧
     (∀ init c, pool_commit (pool_after r) = init +:+ String c "" → c ≠ nl)
   else
     (∃ text, git_result r = Raises (Exception text)) ∧ pool_after r = pool).
Proof.
  intros r head nl. subst r head nl. split_and!.
  - intros -> ->. done.
  - intros dir e -> -> Hrm. unfold cleanup_git. by rewrite Hrm.
  - intros Hdir. unfold cleanup_git.
    set (lines := if force then _ else _).
    assert (lines = Returns (if force then git_dir else None)) as ->.
    { subst lines. destruct force; [|done].
      destruct Hdir as [?|(dir & -> & [-> | ->])]; done. }
    rewrite run_command_cases. case_bool_decide as Hz; simpl.
    + destruct (strip_spec (λ c, bool_decide (c = ascii_of_nat 10))
                  (str_of (decode sh <$> (communicate (create_subprocess_shell sh git_rev_parse)).1)))
        as ((w1 & w2 & Hcut & Hw1 & Hw2) & Hstart & Hend & _).
      split_and!; [done|done| | | | |].
      * by rewrite !str_app_assoc.
      * apply str_drop_last_spec.
      * exists w1, w2. split_and!; [done| |].
        -- intros c Hc. apply Hw1 in Hc. by apply bool_decide_eq_true in Hc.
        -- intros c Hc. apply Hw2 in Hc. by apply bool_decide_eq_true in Hc.
      * intros c rest Hc ->. by specialize (Hstart _ _ Hc).
      * intros init c Hc ->. by specialize (Hend _ _ Hc).
    + split_and!; [done|done|by eexists|done].
Qed.

Lemma cleanup_git_outcome_witness :
  let sh := {| create_subprocess_shell := λ cmd,
                 if bool_decide (cmd = "git fetch origin")
                 then {| returncode := 128; communicate := (Some [], Some []) |}
                 else {| returncode := 0; communicate := (Some [], None) |};
               decode := λ _, "ok" |} in
  let rmtree : string → Rmtree := λ _, RmtreeRaises (OSError "NotADirectoryError") in
  let pool := {| pool_commit := "0f3a"; remote_git_url := "" |} in
  let stopped := cleanup_git sh rmtree "repo.git" "repo.git" (Some "./.git") true pool in
  let r := cleanup_git sh rmtree "repo.git" "repo" None false pool in
  (git_result stopped = Raises (OSError "NotADirectoryError") ∧
   rmtree_called stopped = Some "./.git" ∧
   git_commands stopped = [] ∧ pool_after stopped = pool) ∧
  length (git_commands r) = 5%nat ∧
  git_result r =
    Returns ("ok" +:+ newline +:+ "ok" +:+ newline +:+
             "ok" +:+ newline +:+ newline +:+ "Status Code: 128" +:+ newline +:+
             "ok" +:+ newline) ∧
  remote_git_url (pool_after r) = "".
Proof.
  intros sh rmtree pool stopped r.
  destruct (cleanup_git_outcome sh rmtree "repo.git" "repo.git" (Some "./.git") true pool)
    as (_ & Hstopped & _).
  destruct (cleanup_git_outcome sh rmtree "repo.git" "repo" None false pool)
    as (_ & _ & Hrun).
  destruct Hrun as (Hcmds & _ & Hlog & _); [by left|].
  split; [apply (Hstopped "./.git" (OSError "NotADirectoryError")); reflexivity|].
  split; [exact (f_equal length Hcmds)|].
  split; [|vm_compute; reflexivity].
  etransitivity; [exact Hlog|]. vm_compute. reflexivity.
Defined.

(** ** [reload] *)

Lemma reload_others_spec (self_bot controller_bot : BotCore) (modules : list string)
    (bots : list BotCore) (m : Machine) :
  let r := reload_others self_bot controller_bot modules bots m in
  let others := filter (λ b, u_id (user b) ≠ u_id (user self_bot)) bots in
  result r = Returns tt ∧ after r = m ∧
  bots_synced (calls r) = (λ b, u_id (user b)) <$> others ∧
  module_loads (calls r) = (λ b, (u_id (user b), modules)) <$> others.
Proof.
  induction bots as [|bot rest IH]; [done|].
  cbn zeta in *. destruct IH as (Hres & Hafter & Hsync & Hload).
  rewrite filter_cons. cbn [reload_others].
  case_bool_decide as Hother.
  - rewrite decide_True by done. run_act. rewrite Hres, Hafter. simpl.
    unfold bots_synced, module_loads in *. simpl. by rewrite Hsync, Hload.
  - rewrite decide_False by (intros Hf; by apply Hf).
    run_act. rewrite Hres, Hafter. simpl. done.
Qed.

Lemma self_then_others (self_id : Z) (ids : list Z) :
  NoDup ids → self_id ∈ ids → self_id :: filter (λ i, i ≠ self_id) ids ≡ₚ ids.
Proof.
  intros Hnd Hin. induction Hnd as [|i ids Hi Hnd IH]; [by apply elem_of_nil in Hin|].
  rewrite filter_cons. destruct (decide (i = self_id)) as [->|Hne].
  - rewrite decide_False by (intros Hf; by apply Hf).
    f_equiv. clear IH Hin. induction ids as [|j ids IH]; [done|].
    apply not_elem_of_cons in Hi as [Hj Hi]. apply NoDup_cons in Hnd as [_ Hnd].
    rewrite filter_cons, decide_True by done. f_equiv. by apply IH.
  - rewrite decide_True by done. apply elem_of_cons in Hin as [->|Hin]; [done|].
    rewrite Permutation_swap. f_equiv. by apply IH.
Qed.

(** X21. When the bots of the pool have pairwise different ids and the
    bot of the cog is one of them, [reload] synchronises the application
    commands of every bot of the pool exactly once, and loads on every bot
    exactly once the same list of modules: the names it was given, each
    with [.py] appended. *)
Theorem reload_reaches_every_bot_once
    (self : Owner) (self_bot controller_bot : BotCore) (data : ModuleData)
    (from_command : bool) (ctx : CustomContext) (modules : list string) (m : Machine) :
  let r := reload self self_bot controller_bot data from_command ctx modules m in
  let ids := (λ b, u_id (user b)) <$> pool_bots self in
  NoDup ids → u_id (user self_bot) ∈ ids →
  bots_synced (calls r) ≡ₚ ids ∧
  (module_loads (calls r)).*1 ≡ₚ ids ∧
  Forall (λ l, l.2 = (λ name, name +:+ ".py") <$> modules) (module_loads (calls r)).
Proof.
  intros r ids Hnd Hin. subst r ids. unfold reload.
  set (modules' := (λ name, name +:+ ".py") <$> modules).
  destruct (reload_others_spec self_bot controller_bot modules' (pool_bots self) m)
    as (Hres & Hafter & Hsync & Hload).
  run_act. rewrite Hres, Hafter. simpl.
  assert (Hids : (λ b, u_id (user b)) <$>
                   filter (λ b, u_id (user b) ≠ u_id (user self_bot)) (pool_bots self) =
                 filter (λ i, i ≠ u_id (user self_bot))
                   ((λ b, u_id (user b)) <$> pool_bots self)).
  { clear. induction (pool_bots self) as [|b bs IH]; [done|].
    rewrite fmap_cons, !filter_cons. destruct (decide _); by rewrite ?fmap_cons, IH. }
  unfold bots_synced, module_loads in *.
  assert (Hs : ∀ tail, omap synced (calls (reload_others self_bot controller_bot modules'
                                             (pool_bots self) m) ++ tail) =
                 ((λ b, u_id (user b)) <$>
                    filter (λ b, u_id (user b) ≠ u_id (user self_bot)) (pool_bots self)) ++
                 omap synced tail) by (intros; by rewrite omap_app, Hsync).
  assert (Hl : ∀ tail, omap modules_loaded (calls (reload_others self_bot controller_bot
                                                     modules' (pool_bots self) m) ++ tail) =
                 ((λ b, (u_id (user b), modules')) <$>
                    filter (λ b, u_id (user b) ≠ u_id (user self_bot)) (pool_bots self)) ++
                 omap modules_loaded tail) by (intros; by rewrite omap_app, Hload).
  destruct from_command; simpl; rewrite Hs, Hl; simpl; rewrite !app_nil_r.
  all: split_and!.
  all: try (rewrite Hids; by apply self_then_others).
  all: try (apply Forall_cons; split; [done|]; by apply Forall_fmap, Forall_true).
  all: change (list_fmap (Z * list string)%type Z fst) with (fmap (M := list) (@fst Z (list string))).
  all: rewrite <- list_fmap_compose.
  all: change (fst ∘ _) with (λ b : BotCore, u_id (user b)).
  all: rewrite Hids; by apply self_then_others.
Qed.

Lemma reload_reaches_every_bot_once_witness :
  let r := reload Scenario.pool Scenario.bot_2 Scenario.bot_1
             {| loaded := ["music"]; reloaded := [] |} true Desk.ctx ["music"; "owner"]
             Desk.machine in
  bots_synced (calls r) ≡ₚ [1; 2]%Z ∧
  (module_loads (calls r)).*1 ≡ₚ [1; 2]%Z ∧
  Forall (λ l, l.2 = ["music.py"; "owner.py"]) (module_loads (calls r)).
Proof.
  apply (reload_reaches_every_bot_once Scenario.pool Scenario.bot_2 Scenario.bot_1
           {| loaded := ["music"]; reloaded := [] |} true Desk.ctx ["music"; "owner"]
           Desk.machine).
  - simpl. apply (bool_decide_unpack _). vm_compute. exact I.
  - simpl. apply (bool_decide_unpack _). vm_compute. exact I.
Defined.

Lemma purge_skins_spec (names : list string) (sys_modules : gset string) (m : string) :
  m ∈ purge_skins names sys_modules ↔
  m ∈ sys_modules ∧ ¬ (m ∈ names ∧ startswith m skins_package = true).
Proof.
  revert sys_modules. induction names as [|name rest IH]; intros sys_modules; simpl.
  - split; [|by intros [? _]]. intros Hm. split; [done|]. intros [Hin _].
    by apply elem_of_nil in Hin.
  - destruct (startswith name skins_package) eqn:Hname; simpl; rewrite IH.
    + rewrite elem_of_difference, elem_of_singleton. split.
      * intros [[Hm Hne] Hrest]. split; [done|]. intros [Hin Hskin].
        apply elem_of_cons in Hin as [->|Hin]; [done|]. by apply Hrest.
      * intros [Hm Hnot]. split_and!; [done| |].
        -- intros ->. apply Hnot. split; [apply elem_of_cons; by left|done].
        -- intros [Hin Hskin]. apply Hnot. split; [apply elem_of_cons; by right|done].
    + split.
      * intros [Hm Hrest]. split; [done|]. intros [Hin Hskin].
        apply elem_of_cons in Hin as [->|Hin]; [congruence|]. by apply Hrest.
      * intros [Hm Hnot]. split; [done|]. intros [Hin Hskin]. apply Hnot.
        split; [apply elem_of_cons; by right|done].
Qed.

(** X22. The first loop of [reload], run over a list that holds every
    key of [sys.modules], leaves exactly the modules whose name does not
    start with [utils.music.skins.]: every skin module is dropped, in
    whatever order and however often the names are listed, and no other
    module is. *)
Theorem purge_skins_drops_exactly_the_skins
    (names : list string) (sys_modules : gset string) (m : string) :
  (∀ key, key ∈ sys_modules → key ∈ names) →
  m ∈ purge_skins names sys_modules ↔
  m ∈ sys_modules ∧ startswith m "utils.music.skins." = false.
Proof.
  intros Hall. rewrite purge_skins_spec. fold skins_package. split.
  - intros [Hm Hnot]. split; [done|].
    destruct (startswith m skins_package) eqn:Hskin; [|done].
    destruct Hnot. split; [by apply Hall|done].
  - intros [Hm Hskin]. split; [done|]. intros [_ Hskin']. congruence.
Qed.

Lemma purge_skins_drops_exactly_the_skins_witness :
  let names := ["asyncio"; "utils.music.skins.default"; "utils.music.skins"; "asyncio"] in
  let sys_modules : gset string :=
    {[ "utils.music.skins.default"; "asyncio"; "utils.music.skins" ]} in
  "utils.music.skins" ∈ purge_skins names sys_modules ↔
  "utils.music.skins" ∈ sys_modules ∧
  startswith "utils.music.skins" "utils.music.skins." = false.
Proof.
  intros names sys_modules.
  apply (purge_skins_drops_exactly_the_skins names sys_modules "utils.music.skins").
  intros key Hkey. apply elem_of_union in Hkey as [Hkey|Hkey];
    [apply elem_of_union in Hkey as [Hkey|Hkey]|]; apply elem_of_singleton in Hkey as ->.
  - apply elem_of_cons; right. apply elem_of_cons; by left.
  - apply elem_of_cons; by left.
  - do 2 (apply elem_of_cons; right). apply elem_of_cons; by left.
Defined.
